(** * si5326: register access gateway of the Si5326 clock driver

    A shallow embedding of [si5326.c] (a Linux i2c client driver built for
    ARM, see the Makefile) together with the kernel library routines its
    behaviour depends on: the conversions between C integer types, the
    [ctype] predicates, [sscanf] on the format ["%d 0x%x"] and [sprintf] on
    the format ["%02x %02x"].

    C integers are values of [Z] with the wrap-around written out; the
    SMBus primitives are parameters of the development; every driver
    function threads a kernel state made of the device behind the bus, the
    trace of what the driver did and the kernel log. *)

From Stdlib Require Import ZArith List String Ascii Bool Lia.
Import ListNotations.

Local Open Scope string_scope.
Local Open Scope Z_scope.

(* ================================================================== *)
(** ** C integer types *)

Module CInt.

(** Value of an [bits]-wide unsigned object holding [x]. *)
Definition wrap_unsigned (bits x : Z) : Z := x mod 2 ^ bits.

(** Value of an [bits]-wide two's complement object holding [x]. *)
Definition wrap_signed (bits x : Z) : Z :=
  let u := x mod 2 ^ bits in
  if u <? 2 ^ (bits - 1) then u else u - 2 ^ bits.

Definition to_u8 : Z -> Z := wrap_unsigned 8.
Definition to_uint : Z -> Z := wrap_unsigned 32.
Definition to_int : Z -> Z := wrap_signed 32.
(** [long] is 32 bits wide on the ARM target of the Makefile. *)
Definition to_ulong : Z -> Z := wrap_unsigned 32.
Definition to_long : Z -> Z := wrap_signed 32.
Definition to_ull : Z -> Z := wrap_unsigned 64.
Definition to_ll : Z -> Z := wrap_signed 64.
(** [ssize_t] is [int] on that target. *)
Definition to_ssize_t : Z -> Z := wrap_signed 32.

Definition INT_MIN : Z := - 2 ^ 31.
Definition INT_MAX : Z := 2 ^ 31 - 1.
Definition SSIZE_MAX : Z := 2 ^ 31 - 1.

#[global] Arguments wrap_unsigned : simpl never.
#[global] Arguments wrap_signed : simpl never.
#[global] Arguments to_u8 : simpl never.
#[global] Arguments to_uint : simpl never.
#[global] Arguments to_int : simpl never.
#[global] Arguments to_ssize_t : simpl never.

End CInt.
Import CInt.

(** errno values of [include/uapi/asm-generic/errno-base.h]. *)
Definition EIO : Z := 5.
Definition ENOMEM : Z := 12.
Definition ENODEV : Z := 19.

(* ================================================================== *)
(** ** C strings and the kernel's [ctype] *)

Module CStr.

Definition code (c : ascii) : Z := Z.of_N (N_of_ascii c).

(** [*s]: the terminating NUL is what is read at the end of the buffer. *)
Definition peek (s : string) : ascii :=
  match s with
  | EmptyString => zero
  | String c _ => c
  end.

(** [s + 1] *)
Definition advance (s : string) : string :=
  match s with
  | EmptyString => EmptyString
  | String _ r => r
  end.

Definition is_nul (c : ascii) : bool := code c =? 0.

(** The bytes a ["%s"] sees: up to the first NUL. *)
Fixpoint c_str (s : string) : string :=
  match s with
  | EmptyString => EmptyString
  | String c r => if is_nul c then EmptyString else String c (c_str r)
  end.

(** [lib/ctype.c]: the [_S] entries of [_ctype] are 9..13, 32 and 160. *)
Definition isspace (c : ascii) : bool :=
  let n := code c in
  ((9 <=? n) && (n <=? 13)) || (n =? 32) || (n =? 160).

Definition isdigit (c : ascii) : bool :=
  let n := code c in (48 <=? n) && (n <=? 57).

Definition isxdigit (c : ascii) : bool :=
  let n := code c in
  ((48 <=? n) && (n <=? 57)) || ((65 <=? n) && (n <=? 70))
  || ((97 <=? n) && (n <=? 102)).

(** [_tolower(c)] is [c | 0x20]. *)
Definition _tolower (c : ascii) : Z := Z.lor (code c) 32.

(** [skip_spaces]: [while (isspace( *str)) ++str;] *)
Fixpoint skip_spaces (s : string) : string :=
  match s with
  | EmptyString => EmptyString
  | String c r => if isspace c then skip_spaces r else s
  end.

End CStr.
Import CStr.

(* ================================================================== *)
(** ** [lib/kstrtox.c] and [lib/vsprintf.c]: number parsing *)

Module Kstrtox.

(** The digit value [_parse_integer] gives to a character, if any. *)
Definition digit_value (c : ascii) : option Z :=
  let n := code c in
  if (48 <=? n) && (n <=? 57) then Some (n - 48)
  else if (97 <=? _tolower c) && (_tolower c <=? 102)
       then Some (_tolower c - 97 + 10)
       else None.

(** [_parse_integer]: accumulates in an [unsigned long long]; the overflow
    flag it computes is dropped by [simple_strtoull].  Returns the result
    and the rest of the input. *)
Fixpoint _parse_integer (s : string) (base res : Z) : Z * string :=
  match s with
  | EmptyString => (res, s)
  | String c r =>
      match digit_value c with
      | None => (res, s)
      | Some val =>
          if base <=? val then (res, s)
          else _parse_integer r base (to_ull (res * base + val))
      end
  end.

(** [_parse_integer_fixup_radix] for a base that is not 0. *)
Definition _parse_integer_fixup_radix (s : string) (base : Z) : string :=
  if (base =? 16) && (code (peek s) =? 48)
     && (_tolower (peek (advance s)) =? 120)
  then advance (advance s) else s.

Definition simple_strtoull (cp : string) (base : Z) : Z * string :=
  _parse_integer (_parse_integer_fixup_radix cp base) base 0.

Definition simple_strtoul (cp : string) (base : Z) : Z * string :=
  let (r, endp) := simple_strtoull cp base in (to_ulong r, endp).

Definition simple_strtol (cp : string) (base : Z) : Z * string :=
  if code (peek cp) =? 45
  then let (r, endp) := simple_strtoul (advance cp) base in
       (to_long (- r), endp)
  else let (r, endp) := simple_strtoul cp base in (to_long r, endp).

End Kstrtox.
Import Kstrtox.

(* ================================================================== *)
(** ** [vsscanf] *)

Module Scanf.

(** The directives the driver's format is made of. *)
Inductive directive : Type :=
| DSpace                                   (* white space in the format *)
| DLit (c : ascii)                         (* an ordinary character *)
| DInt (base : Z) (is_sign : bool).        (* %d, %u, %x, %o without width or qualifier *)

(** ["%d 0x%x"] *)
Definition store_reg_format : list directive :=
  [DInt 10 true; DSpace; DLit "0"; DLit "x"; DInt 16 false].

(** The check [vsscanf] makes on the first character of a number. *)
Definition bad_first_digit (base : Z) (digit : ascii) : bool :=
  is_nul digit
  || ((base =? 16) && negb (isxdigit digit))
  || ((base =? 10) && negb (isdigit digit))
  || ((base =? 8) && (negb (isdigit digit) || (55 <? code digit)))
  || ((base =? 0) && negb (isdigit digit)).

(** The loop of [vsscanf]; the result is the list of the values stored
    through the argument pointers, in order ([num] is its length): an
    [int] for a signed conversion, an [unsigned int] otherwise. *)
Fixpoint vsscanf (str : string) (fmt : list directive) : list Z :=
  match fmt with
  | [] => []
  | DSpace :: fmt' => vsscanf (skip_spaces str) fmt'
  | DLit c :: fmt' =>
      if Ascii.eqb c (peek str) then vsscanf (advance str) fmt' else []
  | DInt base is_sign :: fmt' =>
      if is_nul (peek str) then []
      else
        let str := skip_spaces str in
        let digit :=
          if is_sign && (code (peek str) =? 45)
          then peek (advance str) else peek str in
        if bad_first_digit base digit then []
        else if is_sign
             then let (v, next) := simple_strtol str base in
                  to_int (to_ll v) :: vsscanf next fmt'
             else let (v, next) := simple_strtoul str base in
                  to_uint (to_ull v) :: vsscanf next fmt'
  end.

Definition sscanf (buf : string) (fmt : list directive) : list Z :=
  vsscanf buf fmt.

End Scanf.
Import Scanf.

(* ================================================================== *)
(** ** [lib/vsprintf.c]: [number] for ["%02x"] *)

Module Printf.

Definition ascii_of_code (n : Z) : ascii := ascii_of_N (Z.to_N n).

(** [digits[n] | locase] with [digits = "0123456789ABCDEF"] and
    [locase = 0x20] (the conversion is [x], not [X]). *)
Definition hex_digit (n : Z) : ascii :=
  let upper := if n <? 10 then 48 + n else 65 + (n - 10) in
  ascii_of_code (Z.lor upper 32).

(** [do { tmp[i++] = digits[((unsigned char)num) & mask] | locase;
         num >>= shift; } while (num);]
    with [mask = 15] and [shift = 4]: the digits, least significant
    first.  An [unsigned long long] has at most 16 of them. *)
Fixpoint hex_digits_rev (fuel : nat) (num : Z) : list ascii :=
  match fuel with
  | O => []
  | S k =>
      let d := hex_digit (Z.land (to_u8 num) 15) in
      let num' := Z.shiftr num 4 in
      d :: (if num' =? 0 then [] else hex_digits_rev k num')
  end.

Definition number_tmp (num : Z) : list ascii :=
  if num <? 16 then [hex_digit num] else hex_digits_rev 16 num.

Fixpoint string_of_chars (l : list ascii) : string :=
  match l with
  | [] => EmptyString
  | c :: r => String c (string_of_chars r)
  end.

(** [number] with base 16, [SMALL | ZEROPAD] and a field width: zero
    padding up to the width, then [tmp] from its end. *)
Definition number_x (field_width : nat) (num : Z) : string :=
  let tmp := number_tmp num in
  string_of_chars
    (repeat "0"%char (field_width - List.length tmp) ++ rev tmp).

(** ["%02x"]: the argument is fetched as an [unsigned int]. *)
Definition fmt_02x (arg : Z) : string := number_x 2 (to_uint arg).

(** [sprintf(buf, "%02x %02x", a, b)]: what is written to [buf] and the
    number of characters written. *)
Definition sprintf_02x_02x (a b : Z) : Z * string :=
  let s := fmt_02x a ++ " " ++ fmt_02x b in
  (Z.of_nat (String.length s), s).

(** The characters of lowercase hexadecimal. *)
Definition is_lower_hex (c : ascii) : bool :=
  let n := code c in
  ((48 <=? n) && (n <=? 57)) || ((97 <=? n) && (n <=? 102)).

Fixpoint all_chars (p : ascii -> bool) (s : string) : bool :=
  match s with
  | EmptyString => true
  | String c r => p c && all_chars p r
  end.

(** [s] is [n] written in lowercase hexadecimal on at least two
    characters: it has only hexadecimal characters, and the kernel's own
    parser reads [n] back from the whole of it. *)
Definition hex02_of (s : string) (n : Z) : Prop :=
  (2 <= String.length s)%nat
  /\ all_chars is_lower_hex s = true
  /\ simple_strtoull s 16 = (n, EmptyString).

End Printf.
Import Printf.

(* ================================================================== *)
(** ** Digit strings

    What the statements about the two number formats are written in. *)

Module Digits.

Definition digit_of (c : ascii) : Z :=
  match digit_value c with
  | Some v => v
  | None => 0
  end.

(** The value of a digit string in [base], most significant digit first,
    read from the accumulator [acc]. *)
Definition read_digits (base : Z) (l : list ascii) (acc : Z) : Z :=
  fold_left (fun a c => a * base + digit_of c) l acc.

(** [c] is a digit of [base] for [_parse_integer]. *)
Definition digit_in (base : Z) (c : ascii) : Prop :=
  exists v, digit_value c = Some v /\ 0 <= v < base.

(** [_parse_integer] in [base] goes no further than the start of
    [rest]. *)
Definition stops_at (base : Z) (rest : string) : Prop :=
  match digit_value (peek rest) with
  | Some v => base <= v
  | None => True
  end.

Definition good_digit (c : ascii) : Prop :=
  is_lower_hex c = true /\ digit_in 16 c.

(** The sixteen digits of [number], checked one by one. *)
Definition hex_digit_ok (k : nat) : bool :=
  let c := hex_digit (Z.of_nat k) in
  is_lower_hex c
  && match digit_value c with
     | Some v => v =? Z.of_nat k
     | None => false
     end.

(** What [vsscanf] and [_parse_integer] need of a character that
    [isxdigit] accepts. *)
Definition xdigit_ok (c : ascii) : bool :=
  if isxdigit c
  then match digit_value c with
       | Some v => (0 <=? v) && (v <? 16)
       | None => false
       end
       && negb (is_nul c) && negb (isspace c) && negb (_tolower c =? 120)
  else true.

(** A line made of the characters [l] followed by [rest]. *)
Fixpoint chars_then (l : list ascii) (rest : string) : string :=
  match l with
  | [] => rest
  | c :: r => String c (chars_then r rest)
  end.

End Digits.
Import Digits.

(* ================================================================== *)
(** ** The driver *)

(** [const u8 si5326_reset_values[]] *)
Definition si5326_reset_values : list Z := [0x14; 0xe4; 0x42; 0x05].

(** [#define NRESETS sizeof(si5326_reset_values)] *)
Definition NRESETS : Z := Z.of_nat (List.length si5326_reset_values).

(** A [struct mutex] as the driver can leave it. *)
Inductive mutex : Type :=
| MutexZeroed          (* the bytes [kzalloc] hands out *)
| MutexUnlocked        (* after [mutex_init] or [mutex_unlock] *)
| MutexLocked.         (* after [mutex_lock] *)

(** [struct si5326_data] *)
Record si5326_data : Type := mk_data {
  client : Z;          (* [struct i2c_client *], 0 is [NULL] *)
  lock : mutex;
  last_addr : Z
}.

(** What the driver does that can be observed from outside it: calls of
    the two register access helpers with the arguments they receive, the
    assignment to [data->last_addr], and the operations on
    [data->lock]. *)
Inductive event : Type :=
| BusRead (reg : Z)
| BusWrite (reg value : Z)
| SetLastAddr (addr : Z)
| MutexInit
| MutexLock
| MutexUnlock.

(** The kernel log lines the driver emits. *)
Inductive log_entry : Type :=
| ErrReadFailed (ir rc : Z)            (* "ERROR failed to read reg%d:%d" *)
| ErrNotResetValue (ir reg expected : Z)
                                       (* "ERROR: register at [%d] %02x not reset value %02x" *)
| InfoFound (n : Z)                    (* "si5326 found with reset values in first %d regs" *)
| ErrStoreFail (buf : string)          (* "si5326_store_reg: FAIL \"%s\"" *)
| InfoAdded.                           (* "si5326 added device %s" *)

Definition is_transport (e : event) : bool :=
  match e with
  | BusRead _ | BusWrite _ _ => true
  | _ => false
  end.

(** The transport transactions among a list of events. *)
Definition transactions (tr : list event) : list event :=
  filter is_transport tr.

(** The adapter: the device behind it and the two SMBus primitives of
    [linux/i2c.h] the driver calls.  Their [command] and [value]
    parameters are [u8]; their result is an [s32]: a negative errno, or
    the byte read, or 0. *)
Class Smbus (World : Type) : Type := {
  i2c_smbus_read_byte_data : World -> Z -> Z * World;
  i2c_smbus_write_byte_data : World -> Z -> Z -> Z * World
}.

(** What the driver runs in: the device behind the bus, the trace of
    what the driver did, the kernel log. *)
Record kstate (World : Type) : Type := mk_kstate {
  bus : World;
  trace : list event;
  klog : list log_entry
}.

Arguments mk_kstate {World} _ _ _.
Arguments bus {World} _.
Arguments trace {World} _.
Arguments klog {World} _.

(** Driver code runs in a state monad over [kstate]. *)
Definition M (World A : Type) : Type := kstate World -> A * kstate World.

Section Driver.

Context {World : Type} {smbus : Smbus World}.


Definition ret {A : Type} (a : A) : M World A := fun st => (a, st).

Definition bind {A B : Type} (m : M World A) (f : A -> M World B) : M World B :=
  fun st => let (a, st') := m st in f a st'.

Definition emit (e : event) : M World unit :=
  fun st => (tt, mk_kstate (bus st) (trace st ++ [e]) (klog st)).

Definition printk (l : log_entry) : M World unit :=
  fun st => (tt, mk_kstate (bus st) (trace st) (klog st ++ [l])).

Definition smbus_read (command : Z) : M World Z :=
  fun st =>
    let (rc, w) := i2c_smbus_read_byte_data (bus st) command in
    (rc, mk_kstate w (trace st) (klog st)).

Definition smbus_write (command value : Z) : M World Z :=
  fun st =>
    let (rc, w) := i2c_smbus_write_byte_data (bus st) command value in
    (rc, mk_kstate w (trace st) (klog st)).

Notation "x <- m ;; k" := (bind m (fun x => k))
  (at level 61, m at next level, right associativity).
Notation "m ;;; k" := (bind m (fun _ => k))
  (at level 61, right associativity).

(** [static int si5326_read_reg(struct i2c_client *client, int reg)] *)
Definition si5326_read_reg (reg : Z) : M World Z :=
  emit (BusRead reg) ;;;
  smbus_read (to_u8 reg).

(** [static int si5326_write_reg(struct i2c_client *client, int reg,
    u8 value)]: the caller's argument is converted to the [u8]
    parameter. *)
Definition si5326_write_reg (reg : Z) (value : Z) : M World Z :=
  let value := to_u8 value in
  emit (BusWrite reg value) ;;;
  smbus_write (to_u8 reg) value.

(** What a sysfs [show] leaves: its return value (an [int] in both
    branches) and what it wrote to the page, if anything. *)
Definition si5326_show_reg (data : si5326_data) : M World (Z * option string) :=
  rc <- si5326_read_reg (last_addr data) ;;
  if 0 <=? rc
  then let (n, out) := sprintf_02x_02x (last_addr data) rc in
       ret (n, Some out)
  else ret (rc, None).

(** A sysfs [store]: its return value and [*data] afterwards.  [count]
    is a [size_t] returned as an [ssize_t]; the other return values are
    [int]s, which an [ssize_t] holds unchanged. *)
Definition si5326_store_reg (data : si5326_data) (buf : string) (count : Z)
  : M World (Z * si5326_data) :=
  if Ascii.eqb (peek buf) "#"
  then ret (to_ssize_t count, data)
  else
    match sscanf buf store_reg_format with
    | [addr; value] =>
        (* [addr] and [value] are [unsigned]; [addr] was stored as an [int] *)
        rc <- si5326_write_reg (to_int (to_uint addr)) value ;;
        if negb (rc =? 0)
        then ret (- EIO, data)
        else ret (to_ssize_t count, data)
    | [addr] =>
        let a := to_int (to_uint addr) in
        emit (SetLastAddr a) ;;;
        ret (to_ssize_t count, mk_data (client data) (lock data) a)
    | _ =>
        printk (ErrStoreFail (c_str buf)) ;;;
        ret (- EIO, data)
    end.

(** The loop of [si5326_init_client] from index [ir] on, over the rest
    of the table, and what follows the loop. *)
Fixpoint init_client_from (ir : Z) (resets : list Z) (fail : Z) : M World Z :=
  match resets with
  | [] =>
      if negb (fail =? 0)
      then ret (- ENODEV)
      else printk (InfoFound NRESETS) ;;; ret 0
  | expected :: resets' =>
      rc <- si5326_read_reg ir ;;
      if rc <? 0
      then printk (ErrReadFailed ir rc) ;;; ret (- EIO)
      else
        let reg := rc in
        if negb (reg =? expected)
        then printk (ErrNotResetValue ir reg expected) ;;;
             init_client_from (ir + 1) resets' 1
        else init_client_from (ir + 1) resets' fail
  end.

(** [int si5326_init_client(struct i2c_client *client)] *)
Definition si5326_init_client : M World Z :=
  init_client_from 0 si5326_reset_values 0.

(** What the kernel answers to [si5326_probe]. *)
Record probe_env : Type := mk_probe_env {
  i2c_check_functionality : bool;   (* adapter supports I2C_FUNC_SMBUS_BYTE *)
  kzalloc : bool;                   (* the allocation succeeds *)
  sysfs_create_group : Z            (* 0 or a negative errno *)
}.

(** [static int si5326_probe(...)]: its return value and the
    [si5326_data] that is live when it returns, if any.  On the paths
    through [exit_kfree] the record has been freed ([None]); the client
    data pointer set by [i2c_set_clientdata] is not part of the model. *)
Definition si5326_probe (env : probe_env) (i2c_client : Z)
  : M World (Z * option si5326_data) :=
  if negb (i2c_check_functionality env) then ret (- EIO, None)
  else if negb (kzalloc env) then ret (- ENOMEM, None)
  else
    let data := mk_data 0 MutexZeroed 0 in
    let data := mk_data i2c_client (lock data) (last_addr data) in
    emit MutexInit ;;;
    let data := mk_data (client data) MutexUnlocked (last_addr data) in
    err <- si5326_init_client ;;
    if negb (err =? 0) then ret (err, None)
    else
      let err := sysfs_create_group env in
      if negb (err =? 0) then ret (err, None)
      else printk InfoAdded ;;; ret (0, Some data).

(* ---------------------------------------------------------------- *)
(** *** Vocabulary of the statements *)

(** The results of [n] consecutive register reads starting at [ir], and
    the device they leave. *)
Fixpoint bus_reads (w : World) (ir : Z) (n : nat) : list Z * World :=
  match n with
  | O => ([], w)
  | S k =>
      let (rc, w1) := i2c_smbus_read_byte_data w (to_u8 ir) in
      let (rcs, w2) := bus_reads w1 (ir + 1) k in
      (rc :: rcs, w2)
  end.

(** [BusRead ir; BusRead (ir + 1); ...], [n] of them. *)
Fixpoint reads_from (ir : Z) (n : nat) : list event :=
  match n with
  | O => []
  | S k => BusRead ir :: reads_from (ir + 1) k
  end.

(** The mismatch lines for the registers read from [ir] on: one for each
    index at which the value read differs from the expected one. *)
Fixpoint mismatch_log (ir : Z) (regs resets : list Z) : list log_entry :=
  match regs, resets with
  | reg :: regs', expected :: resets' =>
      (if reg =? expected then [] else [ErrNotResetValue ir reg expected])
      ++ mismatch_log (ir + 1) regs' resets'
  | _, _ => []
  end.

Definition is_nil {A : Type} (l : list A) : bool :=
  match l with
  | [] => true
  | _ :: _ => false
  end.

(** The events a computation adds to the trace. *)
Definition events_of {A : Type} (m : M World A) (st : kstate World) : list event :=
  skipn (List.length (trace st)) (trace (snd (m st))).

(** The lock discipline: every register transaction and every assignment
    to [last_addr] in [tr] happens while the mutex, in state [m] before
    [tr], is locked. *)
Fixpoint guarded (m : mutex) (tr : list event) : bool :=
  match tr with
  | [] => true
  | MutexInit :: r => guarded MutexUnlocked r
  | MutexLock :: r => guarded MutexLocked r
  | MutexUnlock :: r => guarded MutexUnlocked r
  | _ :: r =>
      match m with
      | MutexLocked => guarded m r
      | _ => false
      end
  end.

Definition is_mutex_op (e : event) : bool :=
  match e with
  | MutexInit | MutexLock | MutexUnlock => true
  | _ => false
  end.

End Driver.

(* ================================================================== *)
(** ** A simulated chip

    A register file behind the bus in which some registers do not
    answer: the transport the examples run the driver on. *)

Module SimChip.

Record chip : Type := mk_chip {
  regs : list (Z * Z);      (* address, content; absent registers hold 0 *)
  dead : list Z             (* addresses whose transactions fail *)
}.

Definition ENXIO : Z := 6.

Fixpoint lookup (a : Z) (l : list (Z * Z)) : Z :=
  match l with
  | [] => 0
  | (k, v) :: r => if k =? a then v else lookup a r
  end.

Definition is_dead (a : Z) (c : chip) : bool :=
  existsb (Z.eqb a) (dead c).

Definition read_byte_data (c : chip) (command : Z) : Z * chip :=
  if is_dead command c then (- ENXIO, c)
  else (lookup command (regs c), c).

Definition write_byte_data (c : chip) (command value : Z) : Z * chip :=
  if is_dead command c then (- ENXIO, c)
  else (0, mk_chip ((command, value) :: regs c) (dead c)).

(** A chip just out of reset. *)
Definition fresh : chip :=
  mk_chip [(0, 0x14); (1, 0xe4); (2, 0x42); (3, 0x05)] [].

#[global] Instance smbus : Smbus chip := {|
  i2c_smbus_read_byte_data := read_byte_data;
  i2c_smbus_write_byte_data := write_byte_data
|}.

(** The kernel state before the driver has done anything. *)
Definition boot (c : chip) : kstate chip := mk_kstate c [] [].

(** A kernel in which [si5326_probe] meets no obstacle. *)
Definition kernel_ok : probe_env := mk_probe_env true true 0.

(** The [si5326_data] a successful probe of client 1 leaves. *)
Definition attached : si5326_data := mk_data 1 MutexUnlocked 0.

End SimChip.

(* ================================================================== *)
(** * Properties *)

Example sscanf_write : sscanf "7 0x1a" store_reg_format = [7; 26].
Proof. reflexivity. Qed.

Example sscanf_select : sscanf "7" store_reg_format = [7].
Proof. reflexivity. Qed.

Example sscanf_no_prefix : sscanf "7 26" store_reg_format = [7].
Proof. reflexivity. Qed.

Example sscanf_newline :
  sscanf (String "1" (String "2" (String (ascii_of_nat 10) "")))
         store_reg_format = [12].
Proof. reflexivity. Qed.

Example sscanf_garbage : sscanf "reg 7" store_reg_format = [].
Proof. reflexivity. Qed.

Example sscanf_negative : sscanf "-5" store_reg_format = [-5].
Proof. reflexivity. Qed.

Example fmt_02x_7 : fmt_02x 7 = "07". Proof. reflexivity. Qed.
Example fmt_02x_42 : fmt_02x 42 = "2a". Proof. reflexivity. Qed.
Example fmt_02x_300 : fmt_02x 300 = "12c". Proof. reflexivity. Qed.
Example fmt_02x_neg : fmt_02x (-1) = "ffffffff". Proof. reflexivity. Qed.
Example sprintf_7_42 : sprintf_02x_02x 7 42 = (5, "07 2a").
Proof. reflexivity. Qed.

(* ---------------------------------------------------------------- *)
(** *** Integer conversions *)

Lemma wrap_signed_range (x : Z) :
  - 2 ^ 31 <= wrap_signed 32 x <= 2 ^ 31 - 1.
Proof.
  unfold wrap_signed.
  assert (H : 0 <= x mod 2 ^ 32 < 2 ^ 32) by (apply Z.mod_pos_bound; lia).
  change (2 ^ (32 - 1)) with 2147483648.
  change (2 ^ 32) with 4294967296 in *.
  change (2 ^ 31) with 2147483648.
  destruct (x mod 4294967296 <? 2147483648) eqn:E;
    [apply Z.ltb_lt in E | apply Z.ltb_ge in E]; lia.
Qed.

Lemma wrap_signed_id (x : Z) :
  - 2 ^ 31 <= x <= 2 ^ 31 - 1 -> wrap_signed 32 x = x.
Proof.
  intros H. unfold wrap_signed.
  change (2 ^ (32 - 1)) with 2147483648.
  change (2 ^ 32) with 4294967296.
  change (2 ^ 31) with 2147483648 in H.
  destruct (Z_lt_le_dec x 0) as [Hneg | Hpos].
  - assert (Hm : x mod 4294967296 = x + 4294967296).
    { symmetry. apply Z.mod_unique with (q := -1); lia. }
    rewrite Hm.
    destruct (x + 4294967296 <? 2147483648) eqn:E;
      [apply Z.ltb_lt in E | apply Z.ltb_ge in E]; lia.
  - rewrite Z.mod_small by lia.
    destruct (x <? 2147483648) eqn:E;
      [apply Z.ltb_lt in E | apply Z.ltb_ge in E]; lia.
Qed.

Lemma to_int_range (x : Z) : INT_MIN <= to_int x <= INT_MAX.
Proof. apply wrap_signed_range. Qed.

Lemma to_int_id (x : Z) : INT_MIN <= x <= INT_MAX -> to_int x = x.
Proof. apply wrap_signed_id. Qed.

(** Reading an [int] object as [unsigned] and converting back to [int]
    gives the [int]. *)
Lemma to_int_to_uint (x : Z) : to_int (to_uint x) = to_int x.
Proof.
  unfold to_int, to_uint, wrap_signed, wrap_unsigned.
  rewrite Z.mod_mod by (change (2 ^ 32) with 4294967296; lia).
  reflexivity.
Qed.

Lemma int_via_unsigned (x : Z) :
  INT_MIN <= x <= INT_MAX -> to_int (to_uint x) = x.
Proof. intros H. rewrite to_int_to_uint. now apply to_int_id. Qed.

Lemma to_uint_range (x : Z) : 0 <= to_uint x < 2 ^ 32.
Proof. apply Z.mod_pos_bound. lia. Qed.

Lemma to_u8_range (x : Z) : 0 <= to_u8 x <= 255.
Proof.
  unfold to_u8, wrap_unsigned.
  assert (0 <= x mod 2 ^ 8 < 2 ^ 8) by (apply Z.mod_pos_bound; lia).
  change (2 ^ 8) with 256 in *. lia.
Qed.

Lemma to_u8_id (x : Z) : 0 <= x <= 255 -> to_u8 x = x.
Proof.
  intros H. unfold to_u8, wrap_unsigned. apply Z.mod_small.
  change (2 ^ 8) with 256. lia.
Qed.

(** A [size_t] that fits is returned unchanged as an [ssize_t]. *)
Lemma to_ssize_t_id (count : Z) :
  0 <= count <= SSIZE_MAX -> to_ssize_t count = count.
Proof.
  intros H. apply wrap_signed_id. unfold SSIZE_MAX in H.
  change (2 ^ 31) with 2147483648 in *. lia.
Qed.

(* ---------------------------------------------------------------- *)
(** *** What [sscanf] returns on the driver's format *)

Lemma peek_eqb (buf : string) (c : ascii) :
  Ascii.eqb (peek buf) c = true -> peek buf = c.
Proof. apply Ascii.eqb_eq. Qed.

(** A comment line converts nothing. *)
Lemma sscanf_comment (buf : string) :
  peek buf = "#"%char -> sscanf buf store_reg_format = [].
Proof.
  intros H. destruct buf as [| c r]; simpl in H; [discriminate |].
  subst c. reflexivity.
Qed.

(** At most two values are stored. *)
Lemma sscanf_at_most_two (buf : string) :
  (List.length (sscanf buf store_reg_format) <= 2)%nat.
Proof.
  unfold sscanf, store_reg_format. cbn [vsscanf].
  repeat match goal with
         | |- context [if ?b then _ else _] => destruct b
         | |- context [let (_, _) := ?p in _] => destruct p
         end; cbn [List.length]; lia.
Qed.

(** The first value is an [int]. *)
Lemma sscanf_addr_is_int (buf : string) (addr : Z) (l : list Z) :
  sscanf buf store_reg_format = addr :: l -> INT_MIN <= addr <= INT_MAX.
Proof.
  unfold sscanf, store_reg_format. cbn [vsscanf andb].
  destruct (is_nul (peek buf)); [discriminate |].
  destruct (bad_first_digit _ _); [discriminate |].
  destruct (simple_strtol _ _) as [v next].
  intros H. injection H as <- _. apply to_int_range.
Qed.

(** A line is either malformed, an address, or an address and a
    value. *)
Lemma sscanf_cases (buf : string) :
  sscanf buf store_reg_format = []
  \/ (exists addr, sscanf buf store_reg_format = [addr])
  \/ (exists addr value, sscanf buf store_reg_format = [addr; value]).
Proof.
  pose proof (sscanf_at_most_two buf) as H.
  destruct (sscanf buf store_reg_format) as [| a [| v [| x l]]];
    cbn [List.length] in H; eauto; lia.
Qed.

(* ---------------------------------------------------------------- *)
(** *** [_parse_integer] on a digit string *)

Module NumberFacts.

Lemma digit_of_nonneg (c : ascii) : 0 <= digit_of c.
Proof.
  unfold digit_of, digit_value.
  assert (Hc : 0 <= code c) by (unfold code; lia).
  assert (Ht : 0 <= _tolower c).
  { unfold _tolower. apply Z.lor_nonneg. lia. }
  repeat match goal with
         | |- context [if ?b then _ else _] => destruct b eqn:?
         end; lia.
Qed.

Lemma read_digits_mono (base : Z) (l : list ascii) :
  1 <= base -> forall acc : Z, 0 <= acc -> acc <= read_digits base l acc.
Proof.
  intros Hb. unfold read_digits.
  induction l as [| c r IH]; intros acc H; cbn [fold_left]; [lia |].
  pose proof (digit_of_nonneg c).
  specialize (IH (acc * base + digit_of c)). nia.
Qed.

Lemma chars_then_nil (l : list ascii) :
  chars_then l EmptyString = string_of_chars l.
Proof. induction l as [| c r IH]; cbn; congruence. Qed.

Lemma parse_integer_stops (base : Z) (rest : string) (acc : Z) :
  stops_at base rest -> _parse_integer rest base acc = (acc, rest).
Proof.
  unfold stops_at. destruct rest as [| c r]; [reflexivity |].
  cbn [peek _parse_integer].
  destruct (digit_value c) as [v |]; [| reflexivity].
  intros H. apply Z.leb_le in H. now rewrite H.
Qed.

(** [_parse_integer] reads the digits of its base up to the first
    character that is not one and returns their value, as long as it
    fits an [unsigned long long]. *)
Lemma parse_integer_run (base : Z) (l : list ascii) (rest : string) :
  1 <= base ->
  stops_at base rest ->
  Forall (digit_in base) l ->
  forall acc : Z,
    0 <= acc ->
    read_digits base l acc < 2 ^ 64 ->
    _parse_integer (chars_then l rest) base acc
    = (read_digits base l acc, rest).
Proof.
  intros Hbase Hstop Hg.
  induction Hg as [| c r (v & Hv & Hr) _ IH]; intros acc Hacc Hb.
  - now apply parse_integer_stops.
  - cbn [chars_then _parse_integer]. rewrite Hv.
    assert (Hlt : (base <=? v) = false) by (apply Z.leb_gt; lia).
    rewrite Hlt.
    assert (Hd : digit_of c = v) by (unfold digit_of; now rewrite Hv).
    unfold read_digits in *. cbn [fold_left] in *. rewrite Hd in *.
    pose proof (read_digits_mono base r Hbase (acc * base + v) ltac:(nia)) as Hm.
    unfold read_digits in Hm.
    assert (Hw : to_ull (acc * base + v) = acc * base + v).
    { unfold to_ull, wrap_unsigned. apply Z.mod_small. nia. }
    rewrite Hw. apply IH; [nia | exact Hb].
Qed.

End NumberFacts.
Import NumberFacts.

(* ---------------------------------------------------------------- *)
(** *** The lines the format ["%d 0x%x"] is meant for *)

Module ScanfFacts.

Lemma isdigit_digit (c : ascii) :
  isdigit c = true ->
  digit_value c = Some (code c - 48) /\ 0 <= code c - 48 < 10.
Proof.
  unfold isdigit, digit_value. cbv zeta. intros H. rewrite H.
  split; [reflexivity | lia].
Qed.

Lemma isdigit_starts_number (c : ascii) :
  isdigit c = true ->
  is_nul c = false /\ isspace c = false /\ (code c =? 45) = false.
Proof. unfold isdigit, is_nul, isspace. cbv zeta. lia. Qed.

Lemma xdigit_ok_all (c : ascii) : xdigit_ok c = true.
Proof. destruct c as [[] [] [] [] [] [] [] []]; reflexivity. Qed.

Lemma isxdigit_digit (c : ascii) :
  isxdigit c = true ->
  (exists v, digit_value c = Some v /\ 0 <= v < 16)
  /\ is_nul c = false /\ isspace c = false /\ (_tolower c =? 120) = false.
Proof.
  intros H. pose proof (xdigit_ok_all c) as A.
  unfold xdigit_ok in A. rewrite H in A.
  destruct (digit_value c) as [v |]; [| discriminate].
  destruct (is_nul c), (isspace c), (_tolower c =? 120);
    cbn [negb andb] in A; rewrite ?andb_false_r in A; try discriminate.
  split; [exists v; split; [reflexivity | lia] | auto].
Qed.

Lemma skip_spaces_at_char (c : ascii) (r : string) :
  isspace c = false -> skip_spaces (String c r) = String c r.
Proof. intros H. cbn [skip_spaces]. now rewrite H. Qed.

Lemma peek_chars_then (c : ascii) (l : list ascii) (rest : string) :
  peek (chars_then (c :: l) rest) = c.
Proof. reflexivity. Qed.

Lemma digits_in_10 (ds : list ascii) :
  Forall (fun c => isdigit c = true) ds -> Forall (digit_in 10) ds.
Proof.
  apply Forall_impl. intros c H.
  destruct (isdigit_digit c H) as [Hv Hr]. eexists; eauto.
Qed.

Lemma digits_in_16 (hs : list ascii) :
  Forall (fun c => isxdigit c = true) hs -> Forall (digit_in 16) hs.
Proof. apply Forall_impl. intros c H. now destruct (isxdigit_digit c H). Qed.

Lemma read_digits_nonneg (base : Z) (l : list ascii) :
  1 <= base -> 0 <= read_digits base l 0.
Proof. intros H. apply read_digits_mono; lia. Qed.

Lemma scan_space (str : string) (fmt : list directive) :
  vsscanf str (DSpace :: fmt) = vsscanf (skip_spaces str) fmt.
Proof. reflexivity. Qed.

Lemma scan_literal (c : ascii) (str : string) (fmt : list directive) :
  vsscanf (String c str) (DLit c :: fmt) = vsscanf str fmt.
Proof. cbn [vsscanf peek advance]. now rewrite Ascii.eqb_refl. Qed.

(** ["%d"] on a run of decimal digits: their value is stored and the
    scan goes on after them. *)
Lemma scan_decimal (ds : list ascii) (rest : string) (fmt : list directive) :
  ds <> [] ->
  Forall (fun c => isdigit c = true) ds ->
  stops_at 10 rest ->
  read_digits 10 ds 0 <= INT_MAX ->
  vsscanf (chars_then ds rest) (DInt 10 true :: fmt)
  = read_digits 10 ds 0 :: vsscanf rest fmt.
Proof.
  intros Hne Hd Hstop Hmax.
  destruct ds as [| d ds']; [contradiction |].
  pose proof (Forall_inv Hd) as Hd0. cbv beta in Hd0.
  destruct (isdigit_starts_number d Hd0) as (Hnul & Hsp & Hminus).
  pose proof (read_digits_nonneg 10 (d :: ds') ltac:(lia)) as Hpos.
  assert (Hparse : _parse_integer (chars_then (d :: ds') rest) 10 0
                   = (read_digits 10 (d :: ds') 0, rest)).
  { unfold INT_MAX in Hmax. change (2 ^ 31) with 2147483648 in Hmax.
    apply parse_integer_run;
      first [assumption | now apply digits_in_10 | lia]. }
  set (v := read_digits 10 (d :: ds') 0) in *.
  cbn [vsscanf]. rewrite peek_chars_then, Hnul.
  change (chars_then (d :: ds') rest) with (String d (chars_then ds' rest)) in *.
  rewrite (skip_spaces_at_char d _ Hsp).
  cbn [peek andb]. rewrite Hminus.
  assert (Hbad : bad_first_digit 10 d = false).
  { unfold bad_first_digit. rewrite Hnul, Hd0. reflexivity. }
  rewrite Hbad.
  unfold simple_strtol. cbn [peek]. rewrite Hminus.
  unfold simple_strtoul, simple_strtoull, _parse_integer_fixup_radix.
  cbn [Z.eqb andb Pos.eqb]. rewrite Hparse.
  assert (Hv : to_int (to_ll (to_long (to_ulong v))) = v).
  { unfold INT_MAX in Hmax. change (2 ^ 31) with 2147483648 in Hmax.
    assert (Hu : to_ulong v = v).
    { unfold to_ulong, wrap_unsigned. apply Z.mod_small.
      change (2 ^ 32) with 4294967296. lia. }
    assert (Hl : to_long v = v).
    { apply wrap_signed_id. change (2 ^ 31) with 2147483648. lia. }
    assert (Hll : to_ll v = v).
    { unfold to_ll, wrap_signed.
      change (2 ^ 64) with 18446744073709551616.
      change (2 ^ (64 - 1)) with 9223372036854775808.
      rewrite Z.mod_small by lia.
      destruct (v <? 9223372036854775808) eqn:E;
        [reflexivity | apply Z.ltb_ge in E; lia]. }
    rewrite Hu, Hl, Hll. apply wrap_signed_id.
    change (2 ^ 31) with 2147483648. lia. }
  now rewrite Hv.
Qed.

(** ["%x"] on a run of hexadecimal digits. *)
Lemma scan_hexadecimal (hs : list ascii) (rest : string) (fmt : list directive) :
  hs <> [] ->
  Forall (fun c => isxdigit c = true) hs ->
  stops_at 16 rest ->
  (_tolower (peek rest) =? 120) = false ->
  read_digits 16 hs 0 < 2 ^ 32 ->
  vsscanf (chars_then hs rest) (DInt 16 false :: fmt)
  = read_digits 16 hs 0 :: vsscanf rest fmt.
Proof.
  intros Hne Hx Hstop Hnox Hmax.
  destruct hs as [| h hs']; [contradiction |].
  pose proof (Forall_inv Hx) as Hx0. cbv beta in Hx0.
  destruct (isxdigit_digit h Hx0) as (_ & Hnul & Hsp & _).
  pose proof (read_digits_nonneg 16 (h :: hs') ltac:(lia)) as Hpos.
  change (2 ^ 32) with 4294967296 in Hmax.
  assert (Hparse : _parse_integer (chars_then (h :: hs') rest) 16 0
                   = (read_digits 16 (h :: hs') 0, rest)).
  { apply parse_integer_run;
      first [assumption | now apply digits_in_16 | lia]. }
  assert (Hfix : _parse_integer_fixup_radix (chars_then (h :: hs') rest) 16
                 = chars_then (h :: hs') rest).
  { unfold _parse_integer_fixup_radix.
    assert (Hsecond : (_tolower (peek (advance (chars_then (h :: hs') rest)))
                       =? 120) = false).
    { destruct hs' as [| h2 hs'']; cbn [chars_then advance peek];
        [exact Hnox |].
      pose proof (Forall_inv (Forall_inv_tail Hx)) as Hx1. cbv beta in Hx1.
      now destruct (isxdigit_digit h2 Hx1) as (_ & _ & _ & H). }
    rewrite Hsecond. now rewrite andb_false_r. }
  set (v := read_digits 16 (h :: hs') 0) in *.
  cbn [vsscanf]. rewrite peek_chars_then, Hnul.
  change (chars_then (h :: hs') rest) with (String h (chars_then hs' rest)) in *.
  rewrite (skip_spaces_at_char h _ Hsp).
  cbn [peek andb].
  assert (Hbad : bad_first_digit 16 h = false).
  { unfold bad_first_digit. rewrite Hnul, Hx0. reflexivity. }
  rewrite Hbad.
  unfold simple_strtoul, simple_strtoull. rewrite Hfix, Hparse.
  assert (Hv : to_uint (to_ull (to_ulong v)) = v).
  { assert (Hu : to_ulong v = v).
    { unfold to_ulong, wrap_unsigned. apply Z.mod_small.
      change (2 ^ 32) with 4294967296. lia. }
    assert (Hull : to_ull v = v).
    { unfold to_ull, wrap_unsigned. apply Z.mod_small.
      change (2 ^ 64) with 18446744073709551616. lia. }
    rewrite Hu, Hull. unfold to_uint, wrap_unsigned. apply Z.mod_small.
    change (2 ^ 32) with 4294967296. lia. }
  now rewrite Hv.
Qed.

(** A decimal number followed by anything but a blank-separated ["0x"]
    and a hexadecimal digit is an address on its own; this is so at the
    end of the line, before a newline, and before a value without its
    prefix. *)
Lemma sscanf_address_line (ds : list ascii) (rest : string) :
  ds <> [] ->
  Forall (fun c => isdigit c = true) ds ->
  stops_at 10 rest ->
  peek (skip_spaces rest) <> "0"%char ->
  read_digits 10 ds 0 <= INT_MAX ->
  sscanf (chars_then ds rest) store_reg_format = [read_digits 10 ds 0].
Proof.
  intros Hne Hd Hstop Hzero Hmax.
  unfold sscanf, store_reg_format.
  rewrite scan_decimal by assumption.
  cbn [vsscanf].
  destruct (Ascii.eqb "0" (peek (skip_spaces rest))) eqn:E; [| reflexivity].
  apply Ascii.eqb_eq in E. now symmetry in E.
Qed.

(** A decimal number, a blank, ["0x"] and a hexadecimal number are an
    address and a value. *)
Lemma sscanf_write_line (ds hs : list ascii) (rest : string) :
  ds <> [] ->
  hs <> [] ->
  Forall (fun c => isdigit c = true) ds ->
  Forall (fun c => isxdigit c = true) hs ->
  stops_at 16 rest ->
  (_tolower (peek rest) =? 120) = false ->
  read_digits 10 ds 0 <= INT_MAX ->
  read_digits 16 hs 0 < 2 ^ 32 ->
  sscanf (chars_then ds (String " " (String "0" (String "x"
            (chars_then hs rest)))))
         store_reg_format
  = [read_digits 10 ds 0; read_digits 16 hs 0].
Proof.
  intros Hd0 Hh0 Hd Hh Hstop Hnox Hdmax Hhmax.
  unfold sscanf, store_reg_format.
  rewrite scan_decimal; try assumption; [| exact I].
  rewrite scan_space.
  change (skip_spaces (String " " (String "0" (String "x" (chars_then hs rest)))))
    with (String "0" (String "x" (chars_then hs rest))).
  rewrite !scan_literal.
  rewrite scan_hexadecimal by assumption.
  reflexivity.
Qed.

End ScanfFacts.
Import ScanfFacts.

Example address_line_newline :
  sscanf (chars_then ["1"; "2"]%char (String (ascii_of_nat 10) ""))
         store_reg_format
  = [12].
Proof.
  apply (sscanf_address_line ["1"; "2"]%char (String (ascii_of_nat 10) ""));
    try (repeat constructor); try discriminate.
Qed.

(* ---------------------------------------------------------------- *)
(** *** ["%02x"] prints what the parser reads back *)

Module PrintfFacts.


Lemma hex_digit_good (n : Z) :
  0 <= n < 16 ->
  is_lower_hex (hex_digit n) = true /\ digit_value (hex_digit n) = Some n.
Proof.
  intros H.
  assert (A : forallb hex_digit_ok (seq 0 16) = true) by reflexivity.
  rewrite forallb_forall in A.
  specialize (A (Z.to_nat n)). unfold hex_digit_ok in A.
  rewrite Z2Nat.id in A by lia.
  apply andb_prop in A; [| apply in_seq; lia].
  destruct A as [Hl Hv]. split; [exact Hl |].
  destruct (digit_value (hex_digit n)) as [v |]; [| discriminate].
  apply Z.eqb_eq in Hv. now subst v.
Qed.

Lemma hex_digit_is_good (n : Z) : 0 <= n < 16 -> good_digit (hex_digit n).
Proof.
  intros H. destruct (hex_digit_good n H) as [Hl Hv].
  split; [exact Hl | exists n; auto].
Qed.

Lemma good_digits_in (l : list ascii) :
  Forall good_digit l -> Forall (digit_in 16) l.
Proof. apply Forall_impl. now intros c [_ H]. Qed.

Lemma digit_of_hex_digit (n : Z) : 0 <= n < 16 -> digit_of (hex_digit n) = n.
Proof.
  intros H. unfold digit_of. now destruct (hex_digit_good n H) as [_ ->].
Qed.

(** [((unsigned char)num) & 15] is the last hexadecimal digit. *)
Lemma low_nibble (num : Z) : Z.land (to_u8 num) 15 = num mod 16.
Proof.
  unfold to_u8, wrap_unsigned.
  change 15 with (Z.ones 4). rewrite Z.land_ones by lia.
  change (2 ^ 4) with 16. change (2 ^ 8) with 256.
  apply Z.mod_mod_divide. exists 16. reflexivity.
Qed.

Lemma shift_nibble (num : Z) : Z.shiftr num 4 = num / 16.
Proof. rewrite Z.shiftr_div_pow2 by lia. reflexivity. Qed.

(** The digits [number] produces, least significant first, are those of
    [num], provided the fuel covers them. *)
Lemma hex_digits_rev_spec (fuel : nat) :
  forall num : Z,
    0 <= num < 16 ^ Z.of_nat fuel ->
    Forall good_digit (hex_digits_rev fuel num)
    /\ read_digits 16 (rev (hex_digits_rev fuel num)) 0 = num.
Proof.
  induction fuel as [| k IH]; intros num H.
  - change (16 ^ Z.of_nat 0) with 1 in H. cbn. split; [constructor | lia].
  - rewrite Nat2Z.inj_succ, Z.pow_succ_r in H by lia.
    cbn [hex_digits_rev]. rewrite low_nibble, shift_nibble.
    assert (Hm : 0 <= num mod 16 < 16) by (apply Z.mod_pos_bound; lia).
    pose proof (Z.div_mod num 16 ltac:(lia)) as Hdm.
    destruct (num / 16 =? 0) eqn:E.
    + apply Z.eqb_eq in E. split.
      * constructor; [now apply hex_digit_is_good | constructor].
      * cbn. rewrite digit_of_hex_digit by assumption. lia.
    + assert (Hq : 0 <= num / 16 < 16 ^ Z.of_nat k).
      { split; [apply Z.div_pos; lia |].
        apply Z.div_lt_upper_bound; lia. }
      destruct (IH _ Hq) as [Hg Hv]. split.
      * constructor; [now apply hex_digit_is_good | exact Hg].
      * cbn [rev]. unfold read_digits in *.
        rewrite fold_left_app, Hv. cbn [fold_left].
        rewrite digit_of_hex_digit by assumption. lia.
Qed.

Lemma number_tmp_spec (num : Z) :
  0 <= num < 2 ^ 64 ->
  Forall good_digit (number_tmp num)
  /\ read_digits 16 (rev (number_tmp num)) 0 = num
  /\ (1 <= List.length (number_tmp num))%nat.
Proof.
  intros H. unfold number_tmp.
  destruct (num <? 16) eqn:E.
  - apply Z.ltb_lt in E. split; [| split].
    + constructor; [apply hex_digit_is_good; lia | constructor].
    + cbn. rewrite digit_of_hex_digit; lia.
    + cbn. lia.
  - destruct (hex_digits_rev_spec 16 num) as [Hg Hv].
    { change (16 ^ Z.of_nat 16) with (2 ^ 64). exact H. }
    split; [exact Hg | split; [exact Hv |]].
    cbn [hex_digits_rev List.length]. lia.
Qed.

(** [_parse_integer] reads a string of good digits to its end. *)
Lemma parse_integer_digits (l : list ascii) (acc : Z) :
  Forall good_digit l ->
  0 <= acc ->
  read_digits 16 l acc < 2 ^ 64 ->
  _parse_integer (string_of_chars l) 16 acc
  = (read_digits 16 l acc, EmptyString).
Proof.
  intros Hg Hacc Hb. rewrite <- chars_then_nil.
  apply parse_integer_run; try assumption; try lia.
  - exact I.
  - now apply good_digits_in.
Qed.

Lemma good_digit_not_x (c : ascii) :
  is_lower_hex c = true -> (_tolower c =? 120) = false.
Proof.
  destruct c as [[] [] [] [] [] [] [] []]; vm_compute;
    intros H; first [reflexivity | discriminate H].
Qed.

Lemma all_chars_string_of_chars (p : ascii -> bool) (l : list ascii) :
  Forall (fun c => p c = true) l -> all_chars p (string_of_chars l) = true.
Proof.
  induction 1 as [| c r Hc _ IH]; cbn [string_of_chars all_chars];
    [reflexivity |].
  now rewrite Hc, IH.
Qed.

Lemma length_string_of_chars (l : list ascii) :
  String.length (string_of_chars l) = List.length l.
Proof. induction l as [| c r IH]; cbn; congruence. Qed.

Lemma read_digits_zeros (n : nat) : read_digits 16 (repeat "0"%char n) 0 = 0.
Proof. induction n as [| k IH]; [reflexivity | exact IH]. Qed.

(** A string of good digits does not start with the ["0x"] that
    [_parse_integer_fixup_radix] would skip. *)
Lemma fixup_radix_digits (l : list ascii) :
  Forall good_digit l ->
  _parse_integer_fixup_radix (string_of_chars l) 16 = string_of_chars l.
Proof.
  intros Hg. unfold _parse_integer_fixup_radix.
  destruct l as [| a [| b r]]; cbn [string_of_chars peek advance].
  - reflexivity.
  - cbn. now rewrite andb_false_r.
  - inversion Hg as [| x xs _ Hg']; subst x xs.
    inversion Hg' as [| x xs [Hb _] _]; subst x xs.
    rewrite (good_digit_not_x b Hb). now rewrite andb_false_r.
Qed.

(** What ["%02x"] writes. *)
Lemma fmt_02x_spec (arg : Z) : hex02_of (fmt_02x arg) (to_uint arg).
Proof.
  unfold fmt_02x, number_x.
  pose proof (to_uint_range arg) as Hr.
  destruct (number_tmp_spec (to_uint arg)) as (Hg & Hv & Hl).
  { change (2 ^ 64) with 18446744073709551616.
    change (2 ^ 32) with 4294967296 in Hr. lia. }
  set (tmp := number_tmp (to_uint arg)) in *.
  set (digits := (repeat "0"%char (2 - List.length tmp) ++ rev tmp)%list).
  assert (Hgd : Forall good_digit digits).
  { apply Forall_app. split.
    - apply Forall_forall. intros c Hc. apply repeat_spec in Hc. subst c.
      apply (hex_digit_is_good 0). lia.
    - apply Forall_rev. exact Hg. }
  assert (Hval : read_digits 16 digits 0 = to_uint arg).
  { unfold digits, read_digits. rewrite fold_left_app.
    fold (read_digits 16 (repeat "0"%char (2 - List.length tmp)) 0).
    rewrite read_digits_zeros. exact Hv. }
  split; [| split].
  - rewrite length_string_of_chars. unfold digits.
    rewrite length_app, repeat_length, length_rev. lia.
  - apply all_chars_string_of_chars.
    eapply Forall_impl; [| exact Hgd]. intros c [Hc _]. exact Hc.
  - unfold simple_strtoull. rewrite fixup_radix_digits by exact Hgd.
    rewrite parse_integer_digits; [now rewrite Hval | exact Hgd | lia |].
    rewrite Hval. change (2 ^ 64) with 18446744073709551616.
    change (2 ^ 32) with 4294967296 in Hr. lia.
Qed.

(** A byte is written on exactly two characters. *)
Lemma fmt_02x_byte (arg : Z) :
  0 <= arg <= 255 -> String.length (fmt_02x arg) = 2%nat.
Proof.
  intros H.
  assert (A : forallb (fun k => Nat.eqb (String.length (fmt_02x (Z.of_nat k))) 2)
                (seq 0 256) = true) by (vm_compute; reflexivity).
  rewrite forallb_forall in A.
  specialize (A (Z.to_nat arg)).
  rewrite Z2Nat.id in A by lia.
  apply Nat.eqb_eq, A, in_seq. lia.
Qed.

End PrintfFacts.
Import PrintfFacts.

Section Facts.

Context {World : Type} {smbus : Smbus World}.

(* ---------------------------------------------------------------- *)
(** *** Running the monad *)

Ltac run :=
  unfold bind, ret, emit, printk, smbus_read, smbus_write; cbn [bus trace klog fst snd].

Lemma events_of_app {A : Type} (m : M World A) (st : kstate World) (l : list event) :
  trace (snd (m st)) = (trace st ++ l)%list -> events_of m st = l.
Proof.
  intros H. unfold events_of. rewrite H.
  rewrite skipn_app, skipn_all, Nat.sub_diag. reflexivity.
Qed.

Lemma si5326_read_reg_run (reg : Z) (st : kstate World) (rc : Z) (w : World) :
  i2c_smbus_read_byte_data (bus st) (to_u8 reg) = (rc, w) ->
  si5326_read_reg reg st
  = (rc, mk_kstate w (trace st ++ [BusRead reg]) (klog st)).
Proof.
  intros H. unfold si5326_read_reg. run. rewrite H. reflexivity.
Qed.

Lemma si5326_write_reg_run (reg value : Z) (st : kstate World) (rc : Z) (w : World) :
  i2c_smbus_write_byte_data (bus st) (to_u8 reg) (to_u8 value) = (rc, w) ->
  si5326_write_reg reg value st
  = (rc, mk_kstate w (trace st ++ [BusWrite reg (to_u8 value)]) (klog st)).
Proof.
  intros H. unfold si5326_write_reg. run. rewrite H. reflexivity.
Qed.

(* ---------------------------------------------------------------- *)
(** *** The command dispatcher *)

(** C8.  A line whose first character is [#] is a successful no-op: the
    dispatcher returns the input length, the kernel state (device, trace
    of transactions, log) is what it was, and so is [*data], whatever
    follows the [#]. *)
Theorem store_reg_comment
    (data : si5326_data) (buf : string) (count : Z) (st : kstate World) :
  peek buf = "#"%char ->
  0 <= count <= SSIZE_MAX ->
  si5326_store_reg data buf count st = ((count, data), st).
Proof.
  intros Hc Hn. unfold si5326_store_reg.
  assert (E : Ascii.eqb (peek buf) "#" = true) by (now rewrite Hc).
  rewrite E. unfold ret. now rewrite to_ssize_t_id.
Qed.

Lemma not_comment (buf : string) :
  sscanf buf store_reg_format <> [] -> Ascii.eqb (peek buf) "#" = false.
Proof.
  intros H. destruct (Ascii.eqb (peek buf) "#") eqn:E; [| reflexivity].
  apply peek_eqb in E. now apply sscanf_comment in E.
Qed.

(** The address-select branch, given what [sscanf] returned: when it
    converts exactly one value [addr] (the [int] that ["%d"] stored), the
    dispatcher assigns it to [last_addr], leaves the device alone (no
    transport transaction) and returns the input length. *)
Theorem store_reg_select
    (data : si5326_data) (buf : string) (count : Z) (st : kstate World) (addr : Z) :
  sscanf buf store_reg_format = [addr] ->
  0 <= count <= SSIZE_MAX ->
  si5326_store_reg data buf count st
  = ((count, mk_data (client data) (lock data) addr),
     mk_kstate (bus st) (trace st ++ [SetLastAddr addr]) (klog st))
  /\ transactions (events_of (si5326_store_reg data buf count) st) = [].
Proof.
  intros Hs Hn.
  assert (E : si5326_store_reg data buf count st
              = ((count, mk_data (client data) (lock data) addr),
                 mk_kstate (bus st) (trace st ++ [SetLastAddr addr]) (klog st))).
  { unfold si5326_store_reg.
    rewrite not_comment by (rewrite Hs; discriminate).
    rewrite Hs. run.
    rewrite int_via_unsigned by (eapply sscanf_addr_is_int; eassumption).
    now rewrite to_ssize_t_id. }
  split; [exact E |].
  rewrite (events_of_app _ st [SetLastAddr addr]); [reflexivity |].
  now rewrite E.
Qed.

(** C4, as the code has it.  When [sscanf] converts two values [addr]
    and [value], the dispatcher makes exactly one transport write, at
    [addr], of [value] reduced to a byte ([value mod 256], the [u8]
    parameter of [si5326_write_reg]); it returns [-EIO] when the
    transport reports a failure and the input length otherwise; in both
    cases [*data], hence [last_addr], is what it was. *)
Theorem store_reg_write
    (data : si5326_data) (buf : string) (count : Z) (st : kstate World)
    (addr value rc : Z) (w : World) :
  sscanf buf store_reg_format = [addr; value] ->
  i2c_smbus_write_byte_data (bus st) (to_u8 addr) (to_u8 value) = (rc, w) ->
  0 <= count <= SSIZE_MAX ->
  si5326_store_reg data buf count st
  = ((if rc =? 0 then count else - EIO, data),
     mk_kstate w (trace st ++ [BusWrite addr (value mod 256)]) (klog st)).
Proof.
  intros Hs Hw Hn. unfold si5326_store_reg.
  rewrite not_comment by (rewrite Hs; discriminate).
  rewrite Hs.
  rewrite int_via_unsigned by (eapply sscanf_addr_is_int; eassumption).
  unfold bind at 1. rewrite (si5326_write_reg_run _ _ _ _ _ Hw).
  destruct (rc =? 0); cbn [negb]; unfold ret;
    [rewrite to_ssize_t_id by assumption |]; reflexivity.
Qed.

(** C6, as the code has it.  A line that is not a comment and on which
    [sscanf] converts neither exactly one nor exactly two values makes
    the dispatcher log the offending text and return [-EIO], the code it
    also returns for a failed transport write; [*data] and the device
    are what they were and no transaction is made. *)
Theorem store_reg_malformed
    (data : si5326_data) (buf : string) (count : Z) (st : kstate World) :
  peek buf <> "#"%char ->
  List.length (sscanf buf store_reg_format) <> 1%nat ->
  List.length (sscanf buf store_reg_format) <> 2%nat ->
  si5326_store_reg data buf count st
  = ((- EIO, data),
     mk_kstate (bus st) (trace st) (klog st ++ [ErrStoreFail (c_str buf)])).
Proof.
  intros Hc H1 H2. unfold si5326_store_reg.
  destruct (Ascii.eqb (peek buf) "#") eqn:E.
  { apply peek_eqb in E. contradiction. }
  destruct (sscanf buf store_reg_format) as [| a [| v [| x l]]];
    cbn [List.length] in *; try congruence; reflexivity.
Qed.

(* ---------------------------------------------------------------- *)
(** *** The read query *)

(** What a show does, by the outcome of its read. *)
Lemma si5326_show_reg_run
    (data : si5326_data) (st : kstate World) (rc : Z) (w : World) :
  i2c_smbus_read_byte_data (bus st) (to_u8 (last_addr data)) = (rc, w) ->
  si5326_show_reg data st
  = (if 0 <=? rc
     then let out := fmt_02x (last_addr data) ++ " " ++ fmt_02x rc in
          (Z.of_nat (String.length out), Some out)
     else (rc, None),
     mk_kstate w (trace st ++ [BusRead (last_addr data)]) (klog st)).
Proof.
  intros H. unfold si5326_show_reg.
  unfold bind. rewrite (si5326_read_reg_run _ _ _ _ H).
  destruct (0 <=? rc); reflexivity.
Qed.

(** C7.  The read query makes exactly one transport read, at
    [last_addr].  When the read succeeds it writes two tokens separated by
    a space, [last_addr] and the value read, each in lowercase
    hexadecimal on at least two characters, and returns the number of
    characters written; when the read fails it returns the transport's
    error code and writes nothing. *)
Theorem show_reg_reads_last_addr
    (data : si5326_data) (st : kstate World) (rc : Z) (w : World) :
  i2c_smbus_read_byte_data (bus st) (to_u8 (last_addr data)) = (rc, w) ->
  exists (result : Z) (page : option string),
    si5326_show_reg data st
    = ((result, page),
       mk_kstate w (trace st ++ [BusRead (last_addr data)]) (klog st))
    /\ (0 <= rc ->
        exists addr_token value_token : string,
          page = Some (addr_token ++ " " ++ value_token)
          /\ addr_token = fmt_02x (last_addr data)
          /\ value_token = fmt_02x rc
          /\ hex02_of addr_token (to_uint (last_addr data))
          /\ hex02_of value_token (to_uint rc)
          /\ result = Z.of_nat (String.length (addr_token ++ " " ++ value_token)))
    /\ (rc < 0 -> result = rc /\ page = None).
Proof.
  intros H. rewrite (si5326_show_reg_run data st rc w H).
  destruct (0 <=? rc) eqn:E.
  - apply Z.leb_le in E. do 2 eexists. split; [reflexivity |]. split.
    + intros _. exists (fmt_02x (last_addr data)), (fmt_02x rc).
      repeat split; apply fmt_02x_spec.
    + intros Hneg. lia.
  - apply Z.leb_gt in E. do 2 eexists. split; [reflexivity |]. split.
    + intros Hpos. lia.
    + intros _. split; reflexivity.
Qed.

(* ---------------------------------------------------------------- *)
(** *** Presence validation *)

Lemma bus_reads_S (w : World) (ir : Z) (k : nat) :
  bus_reads w ir (S k)
  = let (rc, w1) := i2c_smbus_read_byte_data w (to_u8 ir) in
    let (rcs, w2) := bus_reads w1 (ir + 1) k in
    (rc :: rcs, w2).
Proof. reflexivity. Qed.

Lemma bus_reads_length (n : nat) :
  forall (w : World) (ir : Z) (rcs : list Z) (w' : World),
    bus_reads w ir n = (rcs, w') -> List.length rcs = n.
Proof.
  induction n as [| k IH]; intros w ir rcs w' H; cbn [bus_reads] in H.
  - now injection H as <- _.
  - destruct (i2c_smbus_read_byte_data w (to_u8 ir)) as [rc w1].
    destruct (bus_reads w1 (ir + 1) k) as [l w2] eqn:E.
    injection H as <- _. cbn [List.length]. f_equal. eauto.
Qed.

(** No mismatch line means the values read are the expected ones. *)
Lemma mismatch_log_nil (regs : list Z) :
  forall (resets : list Z) (ir : Z),
    List.length regs = List.length resets ->
    mismatch_log ir regs resets = [] -> regs = resets.
Proof.
  induction regs as [| reg regs' IH]; intros [| e resets'] ir Hl H;
    cbn [List.length] in Hl; try discriminate; [reflexivity |].
  cbn [mismatch_log] in H.
  destruct (reg =? e) eqn:E; [| discriminate].
  apply Z.eqb_eq in E. subst e. f_equal.
  apply (IH resets' (ir + 1)); [lia | exact H].
Qed.

(** Every index at which the value read differs has its line. *)
Lemma mismatch_log_complete (regs : list Z) :
  forall (resets : list Z) (ir : Z) (i : nat),
    (i < List.length regs)%nat ->
    (i < List.length resets)%nat ->
    nth i regs 0 <> nth i resets 0 ->
    In (ErrNotResetValue (ir + Z.of_nat i) (nth i regs 0) (nth i resets 0))
       (mismatch_log ir regs resets).
Proof.
  induction regs as [| reg regs' IH]; intros [| e resets'] ir i Hr He Hd;
    cbn [List.length] in *; try lia.
  cbn [mismatch_log]. apply in_or_app.
  destruct i as [| j]; cbn [nth] in *.
  - left. destruct (reg =? e) eqn:E.
    + apply Z.eqb_eq in E. contradiction.
    + rewrite Z.add_0_r. now left.
  - right.
    replace (ir + Z.of_nat (S j)) with ((ir + 1) + Z.of_nat j) by lia.
    apply IH; [lia | lia | exact Hd].
Qed.

(** Every line is about an index at which the value read differs. *)
Lemma mismatch_log_sound (regs : list Z) :
  forall (resets : list Z) (ir : Z) (l : log_entry),
    In l (mismatch_log ir regs resets) ->
    exists i : nat,
      (i < List.length regs)%nat /\ (i < List.length resets)%nat
      /\ nth i regs 0 <> nth i resets 0
      /\ l = ErrNotResetValue (ir + Z.of_nat i) (nth i regs 0) (nth i resets 0).
Proof.
  induction regs as [| reg regs' IH]; intros [| e resets'] ir l H;
    cbn [mismatch_log] in H; try contradiction.
  apply in_app_or in H. destruct H as [H | H].
  - destruct (reg =? e) eqn:E; [contradiction |].
    destruct H as [<- | []]. apply Z.eqb_neq in E.
    exists 0%nat. cbn [List.length nth]. rewrite Z.add_0_r.
    repeat split; try lia; assumption.
  - destruct (IH _ _ _ H) as (i & Hr & He & Hd & ->).
    exists (S i). cbn [List.length nth].
    replace (ir + Z.of_nat (S i)) with ((ir + 1) + Z.of_nat i) by lia.
    repeat split; try lia; assumption.
Qed.

Lemma reads_from_In (n : nat) :
  forall (ir j : Z),
    In (BusRead j) (reads_from ir n) -> ir <= j < ir + Z.of_nat n.
Proof.
  induction n as [| k IH]; intros ir j H; cbn [reads_from] in H;
    [contradiction |].
  destruct H as [H | H].
  - injection H as <-. lia.
  - apply IH in H. lia.
Qed.

Lemma app_assoc_cons {A : Type} (l : list A) (a : A) (r : list A) :
  ((l ++ [a]) ++ r = l ++ a :: r)%list.
Proof. now rewrite <- app_assoc. Qed.

(** The loop when every read succeeds: all the registers are read, every
    mismatch is logged, and the verdict follows the flag. *)
Lemma init_client_from_all_read (resets : list Z) :
  forall (ir fail : Z) (st : kstate World) (rcs : list Z) (w' : World),
    bus_reads (bus st) ir (List.length resets) = (rcs, w') ->
    Forall (fun rc => 0 <= rc) rcs ->
    let ok := (fail =? 0) && is_nil (mismatch_log ir rcs resets) in
    init_client_from ir resets fail st
    = (if ok then 0 else - ENODEV,
       mk_kstate w'
         (trace st ++ reads_from ir (List.length resets))
         (klog st ++ mismatch_log ir rcs resets
            ++ (if ok then [InfoFound NRESETS] else []))).
Proof.
  induction resets as [| e resets' IH]; intros ir fail st rcs w' Hr Hpos;
    cbn [List.length bus_reads] in Hr.
  - injection Hr as <- <-. cbn [mismatch_log is_nil init_client_from reads_from].
    rewrite andb_true_r. destruct st as [w tr lg]. run.
    destruct (fail =? 0); cbn [negb app]; now rewrite ?app_nil_r.
  - destruct (i2c_smbus_read_byte_data (bus st) (to_u8 ir)) as [rc w1] eqn:E1.
    destruct (bus_reads w1 (ir + 1) (List.length resets')) as [l w2] eqn:E2.
    injection Hr as <- <-.
    inversion Hpos as [| x xs Hrc Hl]; subst x xs.
    cbn [init_client_from]. unfold bind at 1.
    rewrite (si5326_read_reg_run _ _ _ _ E1).
    assert (Hlt : (rc <? 0) = false) by (apply Z.ltb_ge; exact Hrc).
    rewrite Hlt. cbn [mismatch_log reads_from].
    destruct (rc =? e) eqn:Ee; cbn [negb app].
    + rewrite (IH (ir + 1) fail _ l w2) by (cbn [bus]; assumption).
      cbn [trace klog]. now rewrite app_assoc_cons.
    + run. rewrite (IH (ir + 1) 1 _ l w2) by (cbn [bus]; assumption).
      cbn [trace klog is_nil]. rewrite andb_false_r.
      cbn [Z.eqb andb]. now rewrite !app_assoc_cons, app_nil_r.
Qed.

(** The loop when the read of the [i]-th remaining register is the first
    to fail: it is the last read made. *)
Lemma init_client_from_read_fails (i : nat) :
  forall (resets : list Z) (ir fail : Z) (st : kstate World)
         (rcs : list Z) (w' : World),
    (i < List.length resets)%nat ->
    bus_reads (bus st) ir (S i) = (rcs, w') ->
    (forall j : nat, (j < i)%nat -> 0 <= nth j rcs 0) ->
    nth i rcs 0 < 0 ->
    init_client_from ir resets fail st
    = (- EIO,
       mk_kstate w'
         (trace st ++ reads_from ir (S i))
         (klog st ++ mismatch_log ir (firstn i rcs) resets
            ++ [ErrReadFailed (ir + Z.of_nat i) (nth i rcs 0)])).
Proof.
  induction i as [| k IH]; intros [| e resets'] ir fail st rcs w' Hi Hr Hok Hbad;
    cbn [List.length] in Hi; try lia;
    rewrite bus_reads_S in Hr;
    destruct (i2c_smbus_read_byte_data (bus st) (to_u8 ir)) as [rc w1] eqn:E1.
  - cbn [bus_reads] in Hr. injection Hr as <- <-. cbn [nth] in Hbad.
    cbn [init_client_from]. unfold bind at 1.
    rewrite (si5326_read_reg_run _ _ _ _ E1).
    assert (Hlt : (rc <? 0) = true) by (apply Z.ltb_lt; exact Hbad).
    rewrite Hlt. run. cbn [firstn mismatch_log reads_from nth app].
    now rewrite Z.add_0_r.
  - destruct (bus_reads w1 (ir + 1) (S k)) as [l w2] eqn:E2.
    injection Hr as <- <-. cbn [nth] in Hbad.
    cbn [init_client_from]. unfold bind at 1.
    rewrite (si5326_read_reg_run _ _ _ _ E1).
    assert (Hrc : 0 <= rc) by (apply (Hok 0%nat); lia).
    assert (Hlt : (rc <? 0) = false) by (apply Z.ltb_ge; exact Hrc).
    rewrite Hlt.
    assert (Hok' : forall j : nat, (j < k)%nat -> 0 <= nth j l 0).
    { intros j Hj. apply (Hok (S j)). lia. }
    replace (ir + Z.of_nat (S k)) with ((ir + 1) + Z.of_nat k) by lia.
    cbn [firstn mismatch_log nth]. cbn [reads_from].
    destruct (rc =? e) eqn:Ee; cbn [negb app].
    + rewrite (IH resets' (ir + 1) fail _ l w2) by
        (cbn [bus]; first [lia | assumption]).
      cbn [trace klog]. now rewrite app_assoc_cons.
    + run. rewrite (IH resets' (ir + 1) 1 _ l w2) by
        (cbn [bus]; first [lia | assumption]).
      cbn [trace klog]. now rewrite !app_assoc_cons.
Qed.

(** C1.  When the reads of registers 0, 1, 2, 3 succeed and return 0x14,
    0xE4, 0x42, 0x05 in that order, [si5326_init_client] returns 0, having
    made exactly those four reads and logged no mismatch. *)
Theorem init_client_reset_signature (st : kstate World) (w' : World) :
  bus_reads (bus st) 0 4 = ([0x14; 0xe4; 0x42; 0x05], w') ->
  si5326_init_client st
  = (0,
     mk_kstate w'
       (trace st ++ [BusRead 0; BusRead 1; BusRead 2; BusRead 3])
       (klog st ++ [InfoFound 4])).
Proof.
  intros H. unfold si5326_init_client.
  rewrite (init_client_from_all_read si5326_reset_values 0 0 st _ w' H).
  - reflexivity.
  - repeat constructor; discriminate.
Qed.

(** C2.  When the four reads succeed but the values read are not the
    reset signature, [si5326_init_client] still reads all four registers,
    logs one mismatch line for every index at which the value differs and
    for no other, and returns [-ENODEV]. *)
Theorem init_client_mismatch (st : kstate World) (regs : list Z) (w' : World) :
  bus_reads (bus st) 0 4 = (regs, w') ->
  Forall (fun rc => 0 <= rc) regs ->
  regs <> si5326_reset_values ->
  let report := mismatch_log 0 regs si5326_reset_values in
  si5326_init_client st
  = (- ENODEV,
     mk_kstate w'
       (trace st ++ [BusRead 0; BusRead 1; BusRead 2; BusRead 3])
       (klog st ++ report))
  /\ (forall i : nat,
        (i < 4)%nat ->
        nth i regs 0 <> nth i si5326_reset_values 0 ->
        In (ErrNotResetValue (Z.of_nat i) (nth i regs 0)
              (nth i si5326_reset_values 0)) report)
  /\ (forall l : log_entry,
        In l report ->
        exists i : nat,
          (i < 4)%nat
          /\ nth i regs 0 <> nth i si5326_reset_values 0
          /\ l = ErrNotResetValue (Z.of_nat i) (nth i regs 0)
                   (nth i si5326_reset_values 0)).
Proof.
  intros H Hpos Hne report.
  assert (Hlen : List.length regs = 4%nat) by (eapply bus_reads_length; eassumption).
  assert (Hbad : is_nil report = false).
  { destruct report eqn:E; [| reflexivity].
    exfalso. apply Hne.
    apply (mismatch_log_nil regs si5326_reset_values 0); assumption. }
  split; [| split].
  - unfold si5326_init_client.
    rewrite (init_client_from_all_read si5326_reset_values 0 0 st regs w' H Hpos).
    fold report. rewrite Hbad. cbn [andb Z.eqb].
    now rewrite app_nil_r.
  - intros i Hi Hd.
    apply (mismatch_log_complete regs si5326_reset_values 0 i);
      [rewrite Hlen; exact Hi | exact Hi | exact Hd].
  - intros l Hl.
    destruct (mismatch_log_sound regs si5326_reset_values 0 l Hl)
      as (i & _ & Hi & Hd & ->).
    exists i. repeat split; assumption.
Qed.

(** C3.  When the read of register [i] is the first to fail,
    [si5326_init_client] returns [-EIO]; the reads it made are those of
    registers 0 to [i], so none of the registers after [i] is read. *)
Theorem init_client_read_fails
    (st : kstate World) (i : nat) (rcs : list Z) (w' : World) :
  (i < 4)%nat ->
  bus_reads (bus st) 0 (S i) = (rcs, w') ->
  (forall j : nat, (j < i)%nat -> 0 <= nth j rcs 0) ->
  nth i rcs 0 < 0 ->
  fst (si5326_init_client st) = - EIO
  /\ bus (snd (si5326_init_client st)) = w'
  /\ events_of si5326_init_client st = reads_from 0 (S i)
  /\ (forall j : Z, Z.of_nat i < j ->
        ~ In (BusRead j) (events_of si5326_init_client st)).
Proof.
  intros Hi Hr Hok Hbad.
  pose proof (init_client_from_read_fails i si5326_reset_values 0 0 st rcs w'
                Hi Hr Hok Hbad) as E.
  fold si5326_init_client in E.
  assert (Ev : events_of si5326_init_client st = reads_from 0 (S i)).
  { apply events_of_app. now rewrite E. }
  rewrite Ev, E. repeat split.
  intros j Hj Hin. apply reads_from_In in Hin. lia.
Qed.

(* ---------------------------------------------------------------- *)
(** *** Attach *)

(** A probe that returns 0 leaves a zero-allocated [si5326_data] whose
    client is set and whose mutex is initialised. *)
Lemma si5326_probe_success
    (env : probe_env) (i2c_client : Z) (st st1 : kstate World)
    (err : Z) (od : option si5326_data) :
  si5326_probe env i2c_client st = ((err, od), st1) ->
  err = 0 ->
  od = Some (mk_data i2c_client MutexUnlocked 0).
Proof.
  unfold si5326_probe. intros H He.
  destruct (i2c_check_functionality env); cbn [negb] in H.
  2:{ unfold ret in H. injection H as H _ _. subst err. discriminate. }
  destruct (kzalloc env); cbn [negb] in H.
  2:{ unfold ret in H. injection H as H _ _. subst err. discriminate. }
  cbn [client lock last_addr] in H. unfold bind at 1 2 in H.
  destruct (emit MutexInit st) as [[] st0].
  destruct (si5326_init_client st0) as [e st2].
  destruct (e =? 0) eqn:Ee; cbn [negb] in H.
  2:{ unfold ret in H. injection H as H _ _. subst err.
      apply Z.eqb_neq in Ee. contradiction. }
  destruct (sysfs_create_group env =? 0) eqn:Es; cbn [negb] in H.
  2:{ unfold ret in H. injection H as H _ _. subst err.
      apply Z.eqb_neq in Es. contradiction. }
  revert H. run. intros H. now injection H as _ <- _.
Qed.

(** C10.  After a probe that returned 0, [last_addr] is 0; a read query
    made before any address was selected makes exactly one transport
    read, at register 0, and what it reports on success starts with
    ["00"]. *)
Theorem show_reg_after_probe
    (env : probe_env) (i2c_client : Z) (st st1 : kstate World)
    (err : Z) (od : option si5326_data) (rc : Z) (w : World) :
  si5326_probe env i2c_client st = ((err, od), st1) ->
  err = 0 ->
  i2c_smbus_read_byte_data (bus st1) 0 = (rc, w) ->
  exists data : si5326_data,
    od = Some data
    /\ last_addr data = 0
    /\ si5326_show_reg data st1
       = (if 0 <=? rc
          then let out := "00 " ++ fmt_02x rc in
               (Z.of_nat (String.length out), Some out)
          else (rc, None),
          mk_kstate w (trace st1 ++ [BusRead 0]) (klog st1)).
Proof.
  intros Hp He Hr.
  exists (mk_data i2c_client MutexUnlocked 0).
  split; [eapply si5326_probe_success; eassumption |].
  split; [reflexivity |].
  now rewrite (si5326_show_reg_run
                 (mk_data i2c_client MutexUnlocked 0) st1 rc w Hr).
Qed.

(* ---------------------------------------------------------------- *)
(** *** The mutex *)

(** What a store adds to the trace: nothing, one register write, or the
    assignment to [last_addr]; [data->lock] is not touched. *)
Lemma store_reg_events
    (data : si5326_data) (buf : string) (count : Z) (st : kstate World) :
  lock (snd (fst (si5326_store_reg data buf count st))) = lock data
  /\ (events_of (si5326_store_reg data buf count) st = []
      \/ (exists reg value,
            events_of (si5326_store_reg data buf count) st
            = [BusWrite reg value])
      \/ (exists addr,
            events_of (si5326_store_reg data buf count) st
            = [SetLastAddr addr])).
Proof.
  unfold si5326_store_reg.
  destruct (Ascii.eqb (peek buf) "#").
  { split; [reflexivity |]. left.
    apply events_of_app. unfold ret. cbn [snd]. now rewrite app_nil_r. }
  destruct (sscanf_cases buf) as [E | [[a E] | [a [v E]]]]; rewrite E.
  - split; [reflexivity |]. left.
    apply events_of_app. run. now rewrite app_nil_r.
  - split; [reflexivity |]. right. right. eexists.
    apply events_of_app. run. reflexivity.
  - destruct (i2c_smbus_write_byte_data (bus st)
                (to_u8 (to_int (to_uint a))) (to_u8 v)) as [rc w] eqn:Ew.
    assert (R : forall k : Z -> M World (Z * si5326_data),
               bind (si5326_write_reg (to_int (to_uint a)) v) k st
               = k rc (mk_kstate w
                         (trace st ++ [BusWrite (to_int (to_uint a)) (to_u8 v)])
                         (klog st))).
    { intros k. unfold bind. now rewrite (si5326_write_reg_run _ _ _ _ _ Ew). }
    split.
    + rewrite R. destruct (rc =? 0); reflexivity.
    + right. left. do 2 eexists.
      apply events_of_app. rewrite R. destruct (rc =? 0); reflexivity.
Qed.

(** C9, as the code has it.  No command acquires the mutex: a store and a
    show add no mutex operation to the trace and leave [data->lock] as
    [si5326_probe] initialised it, unlocked; so whatever a command does
    (an assignment to [last_addr], a transport transaction) it does with
    the mutex not held.  A store makes at most one transport transaction
    and a show exactly one. *)
Theorem commands_never_lock
    (data : si5326_data) (buf : string) (count : Z) (st : kstate World) :
  lock data = MutexUnlocked ->
  let stored := events_of (si5326_store_reg data buf count) st in
  let shown := events_of (si5326_show_reg data) st in
  lock (snd (fst (si5326_store_reg data buf count st))) = MutexUnlocked
  /\ filter is_mutex_op stored = []
  /\ filter is_mutex_op shown = []
  /\ guarded MutexUnlocked stored = is_nil stored
  /\ guarded MutexUnlocked shown = false
  /\ (List.length (transactions stored) <= 1)%nat
  /\ List.length (transactions shown) = 1%nat.
Proof.
  intros Hl stored shown.
  assert (Hshown : shown = [BusRead (last_addr data)]).
  { unfold shown.
    destruct (i2c_smbus_read_byte_data (bus st) (to_u8 (last_addr data)))
      as [rc w] eqn:Er.
    apply events_of_app. now rewrite (si5326_show_reg_run _ st rc w Er). }
  destruct (store_reg_events data buf count st) as [Hk Hev].
  fold stored in Hev. rewrite Hk, Hshown.
  destruct Hev as [-> | [(reg & value & ->) | (addr & ->)]];
    repeat split; cbn; auto.
Qed.

End Facts.

(* ================================================================== *)
(** * The driver on the simulated chip *)

Import SimChip.

(** A chip whose registers 1 and 3 are not at their reset value. *)
Definition configured : chip :=
  mk_chip [(0, 0x14); (1, 0xe0); (2, 0x42); (3, 0x07)] [].

(** A chip whose register 2 does not answer. *)
Definition faulty : chip :=
  mk_chip [(0, 0x14); (1, 0xe4); (2, 0x42); (3, 0x05)] [2].

(** A chip on which register 7 does not answer. *)
Definition deaf_at_7 : chip := mk_chip (regs fresh) [7].

(** The kernel state a successful probe of [fresh] leaves. *)
Definition probed : kstate chip :=
  mk_kstate fresh
    [MutexInit; BusRead 0; BusRead 1; BusRead 2; BusRead 3]
    [InfoFound 4; InfoAdded].

(** Write 0x2a to register 3, select register 3, read it back. *)
Example write_select_read :
  let '(r1, d1, s1) := si5326_store_reg attached "3 0x2a" 7 probed in
  let '(r2, d2, s2) := si5326_store_reg d1 "3" 2 s1 in
  let '(r3, s3) := si5326_show_reg d2 s2 in
  r1 = 7 /\ r2 = 2 /\ r3 = (5, Some "03 2a")
  /\ trace s3 = (trace probed ++ [BusWrite 3 42; SetLastAddr 3; BusRead 3])%list.
Proof. repeat split; reflexivity. Qed.

(** A write does not move the cursor: the read that follows is at the
    address selected before. *)
Example write_keeps_cursor :
  let '(_, d1, s1) := si5326_store_reg attached "7 0x1a" 7 probed in
  last_addr d1 = 0
  /\ fst (si5326_show_reg d1 s1) = (5, Some "00 14").
Proof. split; reflexivity. Qed.

(** The command byte of an SMBus transaction is a [u8]: a write at 263
    lands in register 7 of the chip. *)
Example write_wraps_address :
  let '(_, _, s1) := si5326_store_reg attached "263 0x1a" 9 probed in
  events_of (si5326_store_reg attached "263 0x1a" 9) probed = [BusWrite 263 26]
  /\ lookup 7 (regs (bus s1)) = 26.
Proof. split; reflexivity. Qed.

(** The prefix of the value is matched literally, the value itself is
    read by [simple_strtoul], which skips a ["0x"] of its own. *)
Example sscanf_prefix_cases :
  sscanf "7 0X1a" store_reg_format = [7]
  /\ sscanf "7 0x" store_reg_format = [7]
  /\ sscanf "70x1a" store_reg_format = [70]
  /\ sscanf "7 0x0x1a" store_reg_format = [7; 26]
  /\ sscanf "7 0x1a trailing" store_reg_format = [7; 26].
Proof. repeat split; reflexivity. Qed.

Lemma init_client_reset_signature_witness :
  si5326_init_client (boot fresh)
  = (0,
     mk_kstate fresh [BusRead 0; BusRead 1; BusRead 2; BusRead 3]
       [InfoFound 4]).
Proof.
  apply (init_client_reset_signature (boot fresh) fresh). reflexivity.
Defined.

Lemma init_client_mismatch_witness :
  fst (si5326_init_client (boot configured)) = - ENODEV
  /\ klog (snd (si5326_init_client (boot configured)))
     = [ErrNotResetValue 1 0xe0 0xe4; ErrNotResetValue 3 0x07 0x05].
Proof.
  destruct (init_client_mismatch (boot configured)
              [0x14; 0xe0; 0x42; 0x07] configured) as [E _].
  - reflexivity.
  - repeat constructor; discriminate.
  - discriminate.
  - rewrite E. split; reflexivity.
Defined.

Lemma init_client_read_fails_witness :
  fst (si5326_init_client (boot faulty)) = - EIO
  /\ events_of si5326_init_client (boot faulty)
     = [BusRead 0; BusRead 1; BusRead 2].
Proof.
  destruct (init_client_read_fails (boot faulty) 2
              [0x14; 0xe4; - ENXIO] faulty) as (E & _ & Ev & _).
  - lia.
  - reflexivity.
  - intros [| [| j]] Hj; cbn; lia.
  - reflexivity.
  - split; [exact E | exact Ev].
Defined.

Lemma store_reg_comment_witness :
  si5326_store_reg attached "#ignore me" 10 probed = ((10, attached), probed).
Proof.
  apply store_reg_comment; [reflexivity | unfold SSIZE_MAX; lia].
Defined.

Lemma store_reg_select_witness :
  si5326_store_reg attached "7" 1 probed
  = ((1, mk_data 1 MutexUnlocked 7),
     mk_kstate fresh (trace probed ++ [SetLastAddr 7]) (klog probed))
  /\ transactions (events_of (si5326_store_reg attached "7" 1) probed) = [].
Proof.
  apply (store_reg_select attached "7" 1 probed 7);
    [reflexivity | unfold SSIZE_MAX; lia].
Defined.

Lemma store_reg_write_witness :
  si5326_store_reg attached "7 0x1a" 6 probed
  = ((6, attached),
     mk_kstate (mk_chip ((7, 26) :: regs fresh) [])
       (trace probed ++ [BusWrite 7 26]) (klog probed)).
Proof.
  apply (store_reg_write attached "7 0x1a" 6 probed 7 26 0
           (mk_chip ((7, 26) :: regs fresh) []));
    [reflexivity | reflexivity | unfold SSIZE_MAX; lia].
Defined.

Lemma store_reg_malformed_witness :
  si5326_store_reg attached "reg 7" 5 probed
  = ((- EIO, attached),
     mk_kstate fresh (trace probed) (klog probed ++ [ErrStoreFail "reg 7"])).
Proof.
  apply (store_reg_malformed attached "reg 7" 5 probed);
    cbn; discriminate.
Defined.

Lemma show_reg_reads_last_addr_witness :
  si5326_show_reg (mk_data 1 MutexUnlocked 2) probed
  = ((5, Some "02 42"),
     mk_kstate fresh (trace probed ++ [BusRead 2]) (klog probed)).
Proof.
  destruct (show_reg_reads_last_addr (mk_data 1 MutexUnlocked 2) probed
              0x42 fresh) as (result & page & E & Hok & _);
    [reflexivity |].
  destruct (Hok ltac:(lia)) as (a & v & -> & -> & -> & _ & _ & ->).
  exact E.
Defined.

Lemma commands_never_lock_witness :
  lock (snd (fst (si5326_store_reg attached "7" 1 probed))) = MutexUnlocked
  /\ filter is_mutex_op (events_of (si5326_store_reg attached "7" 1) probed) = []
  /\ filter is_mutex_op (events_of (si5326_show_reg attached) probed) = []
  /\ guarded MutexUnlocked (events_of (si5326_store_reg attached "7" 1) probed)
     = is_nil (events_of (si5326_store_reg attached "7" 1) probed)
  /\ guarded MutexUnlocked (events_of (si5326_show_reg attached) probed) = false
  /\ (List.length
        (transactions (events_of (si5326_store_reg attached "7" 1) probed))
      <= 1)%nat
  /\ List.length (transactions (events_of (si5326_show_reg attached) probed))
     = 1%nat.
Proof.
  apply (commands_never_lock attached "7" 1 probed). reflexivity.
Defined.

Lemma show_reg_after_probe_witness :
  exists data : si5326_data,
    Some attached = Some data
    /\ last_addr data = 0
    /\ si5326_show_reg data probed
       = ((5, Some "00 14"),
          mk_kstate fresh (trace probed ++ [BusRead 0]) (klog probed)).
Proof.
  apply (show_reg_after_probe kernel_ok 1 (boot fresh) probed 0
           (Some attached) 0x14 fresh); reflexivity.
Defined.

(** C4 as stated fails: of the value [0x1ff] of the line ["7 0x1ff"] the
    transport is handed the byte [0xff]. *)
Lemma store_reg_write_truncates :
  sscanf "7 0x1ff" store_reg_format = [7; 0x1ff]
  /\ events_of (si5326_store_reg attached "7 0x1ff" 7) probed
     = [BusWrite 7 0xff]
  /\ events_of (si5326_store_reg attached "7 0x1ff" 7) probed
     <> [BusWrite 7 0x1ff]
  /\ lookup 7 (regs (bus (snd (si5326_store_reg attached "7 0x1ff" 7 probed))))
     = 0xff.
Proof.
  repeat split; try reflexivity. cbv. discriminate.
Qed.

(** C6 as stated fails twice: the line ["7 26"] is not rejected, it
    selects address 7; and the code returned for a malformed line is the
    one returned for a failed transport write. *)
Lemma store_reg_no_prefix_selects :
  si5326_store_reg attached "7 26" 4 probed
  = ((4, mk_data 1 MutexUnlocked 7),
     mk_kstate fresh (trace probed ++ [SetLastAddr 7]) (klog probed))
  /\ fst (fst (si5326_store_reg attached "reg 7" 5 probed)) = - EIO
  /\ fst (fst (si5326_store_reg attached "7 0x1a" 6
                 (mk_kstate deaf_at_7 (trace probed) (klog probed))))
     = - EIO.
Proof. repeat split; reflexivity. Qed.

(** C9 as stated fails: after a successful probe the mutex is unlocked,
    and it is unlocked when an address-select assigns [last_addr] and
    when a read query makes its transport read. *)
Lemma commands_run_unguarded :
  si5326_probe kernel_ok 1 (boot fresh) = ((0, Some attached), probed)
  /\ events_of (si5326_store_reg attached "7" 1) probed = [SetLastAddr 7]
  /\ guarded (lock attached)
       (events_of (si5326_store_reg attached "7" 1) probed) = false
  /\ events_of (si5326_show_reg attached) probed = [BusRead 0]
  /\ guarded (lock attached)
       (events_of (si5326_show_reg attached) probed) = false.
Proof. repeat split; reflexivity. Qed.

(* ================================================================== *)
(** * Further properties of the driver *)

(** ** Sessions on the sysfs attribute

    [DEVICE_ATTR(si5326_reg, S_IWUSR | S_IRUGO, si5326_show_reg,
    si5326_store_reg)]: a write to the file calls the store, a read of it
    calls the show.  A session is a sequence of such accesses to one
    attached device. *)

Inductive command : Type :=
| Store (buf : string) (count : Z)
| Show.

Section Sessions.

Context {World : Type} {adapter : Smbus World}.

(** One access: what it returns (with the page of a show) and [*data]
    afterwards. *)
Definition run_command (data : si5326_data) (c : command)
  : M World ((Z * option string) * si5326_data) :=
  match c with
  | Store buf count =>
      fun st =>
        let '((r, data'), st') := si5326_store_reg data buf count st in
        (((r, None), data'), st')
  | Show =>
      fun st =>
        let '(r, st') := si5326_show_reg data st in
        ((r, data), st')
  end.

(** The accesses of a session in order: the list of what they returned
    and [*data] at the end. *)
Fixpoint run_session (data : si5326_data) (cmds : list command)
  : M World (list (Z * option string) * si5326_data) :=
  match cmds with
  | [] => fun st => (([], data), st)
  | c :: cmds' =>
      fun st =>
        let '((r, data1), st1) := run_command data c st in
        let '((rs, data2), st2) := run_session data1 cmds' st1 in
        ((r :: rs, data2), st2)
  end.

End Sessions.

(** The address a store leaves in [last_addr], from the text of the line
    alone: the one it selects, or the one there was. *)
Definition cursor_after_store (buf : string) (cursor : Z) : Z :=
  if Ascii.eqb (peek buf) "#" then cursor
  else match sscanf buf store_reg_format with
       | [addr] => addr
       | _ => cursor
       end.

Fixpoint cursor_after (cmds : list command) (cursor : Z) : Z :=
  match cmds with
  | [] => cursor
  | Store buf _ :: cmds' => cursor_after cmds' (cursor_after_store buf cursor)
  | Show :: cmds' => cursor_after cmds' cursor
  end.

Definition is_comment (c : command) : bool :=
  match c with
  | Store buf _ => Ascii.eqb (peek buf) "#"
  | Show => false
  end.

(** The character [vsscanf] tests before it converts the address: the
    first one that is not white space, or the one after it when that
    is a minus sign. *)
Definition leading_digit (buf : string) : ascii :=
  let str := skip_spaces buf in
  if code (peek str) =? 45 then peek (advance str) else peek str.

(** [sscanf] converts at least the address. *)
Definition starts_with_number (buf : string) : bool :=
  negb (is_nul (peek buf)) && isdigit (leading_digit buf).

(** The accesses that go to the bus: the read queries and the write
    lines. *)
Definition makes_transaction (c : command) : bool :=
  match c with
  | Show => true
  | Store buf _ =>
      negb (Ascii.eqb (peek buf) "#")
      && Nat.eqb (List.length (sscanf buf store_reg_format)) 2
  end.

Definition is_bus_read (e : event) : bool :=
  match e with
  | BusRead _ => true
  | _ => false
  end.

Section MoreFacts.

Context {World : Type} {adapter : Smbus World}.

Ltac run_monad :=
  unfold bind, ret, emit, printk, smbus_read, smbus_write;
  cbn [bus trace klog fst snd].

(* ---------------------------------------------------------------- *)
(** *** [sscanf] and the start of the line *)

Lemma bad_first_digit_10 (c : ascii) :
  bad_first_digit 10 c = negb (isdigit c).
Proof.
  unfold bad_first_digit. cbn [Z.eqb Pos.eqb andb orb].
  rewrite !orb_false_r.
  destruct (isdigit c) eqn:E; cbn [negb]; [| apply orb_true_r].
  rewrite orb_false_r. unfold isdigit, is_nul in *. cbv zeta in E. lia.
Qed.

(** [sscanf] converts nothing exactly when the line is empty or does not
    start, after white space and an optional minus sign, with a decimal
    digit. *)
Lemma sscanf_nil_iff (buf : string) :
  sscanf buf store_reg_format = [] <-> starts_with_number buf = false.
Proof.
  unfold sscanf, store_reg_format, starts_with_number, leading_digit.
  cbn [vsscanf andb]. rewrite bad_first_digit_10.
  destruct (is_nul (peek buf)); cbn [negb andb]; [tauto |].
  destruct (isdigit _); cbn [negb]; [| tauto].
  destruct (simple_strtol _ _) as [v next].
  split; discriminate.
Qed.

(* ---------------------------------------------------------------- *)
(** *** The store, case by case *)

(** Every store is one of four things. *)
Lemma si5326_store_reg_cases
    (data : si5326_data) (buf : string) (count : Z) (st : kstate World) :
  (peek buf = "#"%char
   /\ si5326_store_reg data buf count st = ((to_ssize_t count, data), st))
  \/ (peek buf <> "#"%char
      /\ sscanf buf store_reg_format = []
      /\ si5326_store_reg data buf count st
         = ((- EIO, data),
            mk_kstate (bus st) (trace st)
              (klog st ++ [ErrStoreFail (c_str buf)])))
  \/ (exists addr : Z,
        peek buf <> "#"%char
        /\ sscanf buf store_reg_format = [addr]
        /\ INT_MIN <= addr <= INT_MAX
        /\ si5326_store_reg data buf count st
           = ((to_ssize_t count, mk_data (client data) (lock data) addr),
              mk_kstate (bus st) (trace st ++ [SetLastAddr addr]) (klog st)))
  \/ (exists (addr value rc : Z) (w : World),
        peek buf <> "#"%char
        /\ sscanf buf store_reg_format = [addr; value]
        /\ i2c_smbus_write_byte_data (bus st) (to_u8 addr) (to_u8 value)
           = (rc, w)
        /\ si5326_store_reg data buf count st
           = ((if rc =? 0 then to_ssize_t count else - EIO, data),
              mk_kstate w (trace st ++ [BusWrite addr (to_u8 value)])
                (klog st))).
Proof.
  unfold si5326_store_reg.
  destruct (Ascii.eqb (peek buf) "#") eqn:Ec.
  { left. split; [now apply peek_eqb | reflexivity]. }
  assert (Hc : peek buf <> "#"%char).
  { intros H. rewrite H in Ec. discriminate. }
  right.
  destruct (sscanf_cases buf) as [E | [[a E] | [a [v E]]]]; rewrite E.
  - left. repeat split; assumption.
  - right. left. exists a.
    pose proof (sscanf_addr_is_int buf a [] E) as Hr.
    rewrite (int_via_unsigned a Hr). repeat split; first [assumption | apply Hr].
  - right. right.
    pose proof (sscanf_addr_is_int buf a [v] E) as Hr.
    rewrite (int_via_unsigned a Hr).
    destruct (i2c_smbus_write_byte_data (bus st) (to_u8 a) (to_u8 v))
      as [rc w] eqn:Ew.
    exists a, v, rc, w. repeat split; try assumption.
    unfold bind at 1. rewrite (si5326_write_reg_run _ _ _ _ _ Ew).
    destruct (rc =? 0); reflexivity.
Qed.

(* ---------------------------------------------------------------- *)
(** *** The verdict of the presence validation *)

Lemma mismatch_log_nil_same (resets : list Z) :
  forall ir : Z, mismatch_log ir resets resets = [].
Proof.
  induction resets as [| e r IH]; intros ir; cbn [mismatch_log];
    [reflexivity |].
  rewrite Z.eqb_refl. apply IH.
Qed.

(** Of the answers to [n] consecutive reads, either none is an error or
    there is a first one that is. *)
Lemma bus_reads_first_failure (n : nat) :
  forall (w : World) (ir : Z) (rcs : list Z) (w' : World),
    bus_reads w ir n = (rcs, w') ->
    Forall (fun rc => 0 <= rc) rcs
    \/ exists (i : nat) (rcs_i : list Z) (w_i : World),
         (i < n)%nat
         /\ bus_reads w ir (S i) = (rcs_i, w_i)
         /\ (forall j : nat, (j < i)%nat -> 0 <= nth j rcs_i 0)
         /\ nth i rcs_i 0 < 0.
Proof.
  induction n as [| k IH]; intros w ir rcs w' H.
  - cbn [bus_reads] in H. injection H as <- _. left. constructor.
  - rewrite bus_reads_S in H.
    destruct (i2c_smbus_read_byte_data w (to_u8 ir)) as [rc w1] eqn:E1.
    destruct (bus_reads w1 (ir + 1) k) as [l w2] eqn:E2.
    injection H as <- <-.
    destruct (Z_lt_le_dec rc 0) as [Hneg | Hpos].
    + right. exists 0%nat, [rc], w1. repeat split; try lia.
      * rewrite bus_reads_S, E1. reflexivity.
      * exact Hneg.
    + destruct (IH w1 (ir + 1) l w2 E2) as [Hall | (i & rcs_i & w_i & Hi & Hr & Hok & Hbad)].
      * left. constructor; assumption.
      * right. exists (S i), (rc :: rcs_i), w_i. repeat split; try lia.
        -- rewrite bus_reads_S, E1, Hr. reflexivity.
        -- intros [| j] Hj; cbn [nth]; [exact Hpos | apply Hok; lia].
        -- exact Hbad.
Qed.

Lemma bus_reads_snd_S (k : nat) :
  forall (w : World) (ir : Z),
    snd (bus_reads w ir (S k))
    = snd (bus_reads (snd (i2c_smbus_read_byte_data w (to_u8 ir))) (ir + 1) k).
Proof.
  intros w ir. rewrite bus_reads_S.
  destruct (i2c_smbus_read_byte_data w (to_u8 ir)) as [rc w1]. cbn [snd].
  now destruct (bus_reads w1 (ir + 1) k).
Qed.

Lemma reads_from_only_reads (n : nat) :
  forall ir : Z, forallb is_bus_read (reads_from ir n) = true.
Proof. induction n as [| k IH]; intros ir; cbn; auto. Qed.

Lemma reads_from_length (n : nat) :
  forall ir : Z, List.length (reads_from ir n) = n.
Proof. induction n as [| k IH]; intros ir; cbn; auto. Qed.

(** Whatever the device answers, [si5326_init_client] ends in one of
    three ways. *)
Lemma si5326_init_client_cases (st : kstate World) :
  (exists w' : World,
      bus_reads (bus st) 0 4 = (si5326_reset_values, w')
      /\ si5326_init_client st
         = (0, mk_kstate w' (trace st ++ reads_from 0 4)
                 (klog st ++ [InfoFound NRESETS])))
  \/ (exists (rcs : list Z) (w' : World),
         bus_reads (bus st) 0 4 = (rcs, w')
         /\ Forall (fun rc => 0 <= rc) rcs
         /\ rcs <> si5326_reset_values
         /\ si5326_init_client st
            = (- ENODEV,
               mk_kstate w' (trace st ++ reads_from 0 4)
                 (klog st ++ mismatch_log 0 rcs si5326_reset_values)))
  \/ (exists (i : nat) (rcs : list Z) (w' : World),
         (i < 4)%nat
         /\ bus_reads (bus st) 0 (S i) = (rcs, w')
         /\ (forall j : nat, (j < i)%nat -> 0 <= nth j rcs 0)
         /\ nth i rcs 0 < 0
         /\ si5326_init_client st
            = (- EIO,
               mk_kstate w' (trace st ++ reads_from 0 (S i))
                 (klog st
                  ++ mismatch_log 0 (firstn i rcs) si5326_reset_values
                  ++ [ErrReadFailed (Z.of_nat i) (nth i rcs 0)]))).
Proof.
  destruct (bus_reads (bus st) 0 4) as [rcs w'] eqn:E.
  destruct (bus_reads_first_failure 4 _ _ _ _ E)
    as [Hall | (i & rcs_i & w_i & Hi & Hr & Hok & Hbad)].
  - pose proof (init_client_from_all_read si5326_reset_values 0 0 st rcs w' E Hall)
      as R.
    fold si5326_init_client in R. cbv zeta in R. cbn [Z.eqb andb] in R.
    destruct (mismatch_log 0 rcs si5326_reset_values) as [| l ls] eqn:Em.
    + left. exists w'.
      assert (Hrcs : rcs = si5326_reset_values).
      { apply (mismatch_log_nil rcs si5326_reset_values 0);
          [apply (bus_reads_length 4 _ _ _ _ E) | exact Em]. }
      subst rcs. split; [reflexivity | exact R].
    + right. left. exists rcs, w'. repeat split; try assumption.
      * intros ->. rewrite mismatch_log_nil_same in Em. discriminate.
      * rewrite R, Em. cbn [is_nil]. now rewrite app_nil_r.
  - right. right. exists i, rcs_i, w_i. repeat split; try assumption.
    exact (init_client_from_read_fails i si5326_reset_values 0 0 st rcs_i w_i
             Hi Hr Hok Hbad).
Qed.

Lemma si5326_init_client_zero_iff (st : kstate World) :
  fst (si5326_init_client st) = 0
  <-> fst (bus_reads (bus st) 0 4) = si5326_reset_values.
Proof.
  split.
  - intros H.
    destruct (si5326_init_client_cases st)
      as [(w' & Hr & _) | [(rcs & w' & _ & _ & _ & E) | (i & rcs & w' & _ & _ & _ & _ & E)]].
    + now rewrite Hr.
    + rewrite E in H. discriminate H.
    + rewrite E in H. discriminate H.
  - intros H.
    destruct (bus_reads (bus st) 0 4) as [rcs w'] eqn:E.
    cbn [fst] in H. subst rcs.
    unfold si5326_init_client.
    rewrite (init_client_from_all_read si5326_reset_values 0 0 st _ w' E);
      [reflexivity | repeat constructor; discriminate].
Qed.

(** X1.  The presence validation accepts exactly the reset signature:
    [si5326_init_client] returns 0 if and only if the four reads of
    registers 0 to 3 return 0x14, 0xE4, 0x42, 0x05. *)
Theorem init_client_accepts_iff (st : kstate World) :
  fst (si5326_init_client st) = 0
  <-> fst (bus_reads (bus st) 0 4) = si5326_reset_values.
Proof.
  split.
  - intros H.
    destruct (si5326_init_client_cases st)
      as [(w' & Hr & _) | [(rcs & w' & _ & _ & _ & E) | (i & rcs & w' & _ & _ & _ & _ & E)]].
    + now rewrite Hr.
    + rewrite E in H. discriminate H.
    + rewrite E in H. discriminate H.
  - intros H.
    destruct (bus_reads (bus st) 0 4) as [rcs w'] eqn:E.
    cbn [fst] in H. subst rcs.
    unfold si5326_init_client.
    rewrite (init_client_from_all_read si5326_reset_values 0 0 st _ w' E);
      [reflexivity | repeat constructor; discriminate].
Qed.

(** X2.  [si5326_init_client] returns [-ENODEV] if and only if the four
    reads all succeed and what they return is not the reset signature;
    it returns [-EIO] if and only if one of the reads, the first [i] having
    succeeded, fails. *)
Theorem init_client_rejects_iff (st : kstate World) :
  (fst (si5326_init_client st) = - ENODEV
   <-> Forall (fun rc => 0 <= rc) (fst (bus_reads (bus st) 0 4))
       /\ fst (bus_reads (bus st) 0 4) <> si5326_reset_values)
  /\ (fst (si5326_init_client st) = - EIO
      <-> exists i : nat,
            (i < 4)%nat
            /\ (forall j : nat,
                  (j < i)%nat -> 0 <= nth j (fst (bus_reads (bus st) 0 (S i))) 0)
            /\ nth i (fst (bus_reads (bus st) 0 (S i))) 0 < 0).
Proof.
  split; split.
  - intros H.
    destruct (si5326_init_client_cases st)
      as [(w' & _ & E) | [(rcs & w' & Hr & Hall & Hne & _) | (i & rcs & w' & _ & _ & _ & _ & E)]].
    + rewrite E in H. discriminate H.
    + rewrite Hr. split; assumption.
    + rewrite E in H. discriminate H.
  - intros [Hall Hne].
    destruct (bus_reads (bus st) 0 4) as [rcs w'] eqn:E. cbn [fst] in *.
    unfold si5326_init_client.
    rewrite (init_client_from_all_read si5326_reset_values 0 0 st rcs w' E Hall).
    cbn [fst Z.eqb andb].
    destruct (mismatch_log 0 rcs si5326_reset_values) eqn:Em; [| reflexivity].
    exfalso. apply Hne.
    apply (mismatch_log_nil rcs si5326_reset_values 0);
      [apply (bus_reads_length 4 _ _ _ _ E) | exact Em].
  - intros H.
    destruct (si5326_init_client_cases st)
      as [(w' & _ & E) | [(rcs & w' & _ & _ & _ & E) | (i & rcs & w' & Hi & Hr & Hok & Hbad & _)]].
    + rewrite E in H. discriminate H.
    + rewrite E in H. discriminate H.
    + exists i. rewrite Hr. repeat split; assumption.
  - intros (i & Hi & Hok & Hbad).
    destruct (bus_reads (bus st) 0 (S i)) as [rcs w'] eqn:E. cbn [fst] in *.
    unfold si5326_init_client.
    now rewrite (init_client_from_read_fails i si5326_reset_values 0 0 st rcs w'
                   Hi E Hok Hbad).
Qed.

Lemma si5326_init_client_reads (st : kstate World) :
  exists k : nat,
    (1 <= k <= 4)%nat
    /\ events_of si5326_init_client st = reads_from 0 k
    /\ bus (snd (si5326_init_client st)) = snd (bus_reads (bus st) 0 k)
    /\ ((fst (si5326_init_client st) = 0 /\ k = 4%nat)
        \/ (fst (si5326_init_client st) = - ENODEV /\ k = 4%nat)
        \/ fst (si5326_init_client st) = - EIO).
Proof.
  destruct (si5326_init_client_cases st)
    as [(w' & Hr & E) | [(rcs & w' & Hr & _ & _ & E) | (i & rcs & w' & Hi & Hr & _ & _ & E)]].
  - exists 4%nat. rewrite (events_of_app _ st (reads_from 0 4)) by now rewrite E.
    rewrite E, Hr. repeat split; auto; lia.
  - exists 4%nat. rewrite (events_of_app _ st (reads_from 0 4)) by now rewrite E.
    rewrite E, Hr. repeat split; auto; lia.
  - exists (S i).
    rewrite (events_of_app _ st (reads_from 0 (S i))) by now rewrite E.
    rewrite E, Hr. repeat split; auto; lia.
Qed.

(** X3.  Whatever the device answers, [si5326_init_client] only reads: it
    reads registers 0, 1, ... in order, at least one and at most four of
    them, writes none, and leaves the device as those reads leave it; it
    returns 0, [-ENODEV] or [-EIO], the first two only after all four
    reads. *)
Theorem init_client_only_reads (st : kstate World) :
  exists k : nat,
    (1 <= k <= 4)%nat
    /\ events_of si5326_init_client st = reads_from 0 k
    /\ bus (snd (si5326_init_client st)) = snd (bus_reads (bus st) 0 k)
    /\ ((fst (si5326_init_client st) = 0 /\ k = 4%nat)
        \/ (fst (si5326_init_client st) = - ENODEV /\ k = 4%nat)
        \/ fst (si5326_init_client st) = - EIO).
Proof.
  destruct (si5326_init_client_cases st)
    as [(w' & Hr & E) | [(rcs & w' & Hr & _ & _ & E) | (i & rcs & w' & Hi & Hr & _ & _ & E)]].
  - exists 4%nat. rewrite (events_of_app _ st (reads_from 0 4)) by now rewrite E.
    rewrite E, Hr. repeat split; auto; lia.
  - exists 4%nat. rewrite (events_of_app _ st (reads_from 0 4)) by now rewrite E.
    rewrite E, Hr. repeat split; auto; lia.
  - exists (S i).
    rewrite (events_of_app _ st (reads_from 0 (S i))) by now rewrite E.
    rewrite E, Hr. repeat split; auto; lia.
Qed.

(** X4.  When a read fails, the mismatches found in the registers before
    it are still reported: the log gains their lines, in order, and then
    the line of the failed read with its register and error code. *)
Theorem init_client_failure_log
    (st : kstate World) (i : nat) (rcs : list Z) (w' : World) :
  (i < 4)%nat ->
  bus_reads (bus st) 0 (S i) = (rcs, w') ->
  (forall j : nat, (j < i)%nat -> 0 <= nth j rcs 0) ->
  nth i rcs 0 < 0 ->
  klog (snd (si5326_init_client st))
  = (klog st
     ++ mismatch_log 0 (firstn i rcs) si5326_reset_values
     ++ [ErrReadFailed (Z.of_nat i) (nth i rcs 0)])%list.
Proof.
  intros Hi Hr Hok Hbad. unfold si5326_init_client.
  now rewrite (init_client_from_read_fails i si5326_reset_values 0 0 st rcs w'
                 Hi Hr Hok Hbad).
Qed.

(* ---------------------------------------------------------------- *)
(** *** Attach *)

(** What [si5326_probe] does once the adapter is fit and the allocation
    made. *)
Lemma si5326_probe_run (env : probe_env) (i2c_client : Z) (st : kstate World) :
  i2c_check_functionality env = true ->
  kzalloc env = true ->
  si5326_probe env i2c_client st
  = let '(e, st2) :=
      si5326_init_client
        (mk_kstate (bus st) (trace st ++ [MutexInit]) (klog st)) in
    if negb (e =? 0) then ((e, None), st2)
    else if negb (sysfs_create_group env =? 0)
         then ((sysfs_create_group env, None), st2)
         else ((0, Some (mk_data i2c_client MutexUnlocked 0)),
               mk_kstate (bus st2) (trace st2) (klog st2 ++ [InfoAdded])).
Proof.
  intros Hf Hk. unfold si5326_probe. rewrite Hf, Hk. cbn [negb].
  cbn [client lock last_addr]. unfold bind at 1 2. cbn [emit].
  unfold emit.
  destruct (si5326_init_client _) as [e st2].
  destruct (e =? 0); cbn [negb]; [| reflexivity].
  destruct (sysfs_create_group env =? 0); reflexivity.
Qed.

(** X5.  [si5326_probe] returns 0 if and only if the adapter does SMBus
    byte transfers, the allocation succeeds, the four reads return the
    reset signature and [sysfs_create_group] returns 0. *)
Theorem probe_succeeds_iff
    (env : probe_env) (i2c_client : Z) (st : kstate World) :
  fst (fst (si5326_probe env i2c_client st)) = 0
  <-> i2c_check_functionality env = true
      /\ kzalloc env = true
      /\ fst (bus_reads (bus st) 0 4) = si5326_reset_values
      /\ sysfs_create_group env = 0.
Proof.
  pose proof (si5326_init_client_zero_iff
                (mk_kstate (bus st) (trace st ++ [MutexInit]) (klog st))) as A.
  cbn [bus] in A.
  destruct (i2c_check_functionality env) eqn:Hf.
  2:{ unfold si5326_probe. rewrite Hf. cbn. split; [discriminate | intros [H _]; discriminate]. }
  destruct (kzalloc env) eqn:Hk.
  2:{ unfold si5326_probe. rewrite Hf, Hk. cbn.
      split; [discriminate | intros (_ & H & _); discriminate]. }
  rewrite (si5326_probe_run env i2c_client st Hf Hk).
  destruct (si5326_init_client _) as [e st2]. cbn [fst] in A.
  destruct (e =? 0) eqn:Ee; cbn [negb fst].
  - apply Z.eqb_eq in Ee.
    destruct (sysfs_create_group env =? 0) eqn:Es; cbn [negb fst].
    + apply Z.eqb_eq in Es. split; [intros _ | reflexivity].
      repeat split; try assumption. now apply A.
    + apply Z.eqb_neq in Es. split; [contradiction | intros (_ & _ & _ & H); contradiction].
  - apply Z.eqb_neq in Ee. split; [contradiction |].
    intros (_ & _ & H & _). apply A in H. contradiction.
Qed.

Lemma mismatch_log_not_added (ir : Z) (regs resets : list Z) :
  ~ In InfoAdded (mismatch_log ir regs resets).
Proof.
  intros H. destruct (mismatch_log_sound regs resets ir _ H) as (i & _ & _ & _ & E).
  discriminate E.
Qed.

(** What the validation adds to the log never is the line that announces
    the device. *)
Lemma si5326_init_client_log (st : kstate World) :
  exists l : list log_entry,
    klog (snd (si5326_init_client st)) = (klog st ++ l)%list
    /\ ~ In InfoAdded l
    /\ (fst (si5326_init_client st) = 0
        \/ fst (si5326_init_client st) = - ENODEV
        \/ fst (si5326_init_client st) = - EIO).
Proof.
  destruct (si5326_init_client_cases st)
    as [(w' & _ & E) | [(rcs & w' & _ & _ & _ & E) | (i & rcs & w' & _ & _ & _ & _ & E)]];
    rewrite E; cbn [fst snd klog]; eexists; (split; [reflexivity |]); split; auto.
  - intros [H | []]. discriminate H.
  - apply mismatch_log_not_added.
  - intros H. apply in_app_or in H. destruct H as [H | [H | []]].
    + now apply mismatch_log_not_added in H.
    + discriminate H.
Qed.

(** X6.  [si5326_probe] announces the device exactly when it returns 0:
    it then adds the line ["si5326 added device"] to the log, once and
    last, and the data is the zero-allocated record with its client set
    and its mutex initialised.  When it fails the line is not logged and
    the code returned is [-EIO], [-ENOMEM], [-ENODEV] or the non-zero
    code of [sysfs_create_group]. *)
Theorem probe_announces_iff_zero
    (env : probe_env) (i2c_client : Z) (st : kstate World) :
  let '((err, od), st') := si5326_probe env i2c_client st in
  exists l : list log_entry,
    klog st' = (klog st ++ l)%list
    /\ ((err = 0
         /\ od = Some (mk_data i2c_client MutexUnlocked 0)
         /\ exists l0, l = (l0 ++ [InfoAdded])%list /\ ~ In InfoAdded l0)
        \/ (err <> 0
            /\ ~ In InfoAdded l
            /\ (err = - EIO \/ err = - ENOMEM \/ err = - ENODEV
                \/ err = sysfs_create_group env))).
Proof.
  destruct (i2c_check_functionality env) eqn:Hf.
  2:{ unfold si5326_probe. rewrite Hf. cbn [negb ret].
      exists []. rewrite app_nil_r. split; [reflexivity |]. right.
      repeat split; auto. discriminate. }
  destruct (kzalloc env) eqn:Hk.
  2:{ unfold si5326_probe. rewrite Hf, Hk. cbn [negb ret].
      exists []. rewrite app_nil_r. split; [reflexivity |]. right.
      repeat split; auto. discriminate. }
  rewrite (si5326_probe_run env i2c_client st Hf Hk).
  set (st0 := mk_kstate (bus st) (trace st ++ [MutexInit]) (klog st)).
  destruct (si5326_init_client_log st0) as (l & Hl & Hno & Hcode).
  destruct (si5326_init_client st0) as [e st2]. cbn [fst snd] in *.
  unfold st0 in Hl. cbn [klog] in Hl.
  destruct (e =? 0) eqn:Ee; cbn [negb].
  - apply Z.eqb_eq in Ee.
    destruct (sysfs_create_group env =? 0) eqn:Es; cbn [negb].
    + exists (l ++ [InfoAdded])%list. cbn [klog]. rewrite Hl, app_assoc.
      split; [reflexivity |]. left.
      split; [reflexivity |]. split; [reflexivity |].
      exists l. split; [reflexivity | exact Hno].
    + apply Z.eqb_neq in Es. exists l. split; [exact Hl |]. right.
      repeat split; auto.
  - apply Z.eqb_neq in Ee. exists l. split; [exact Hl |]. right.
    repeat split; auto.
    destruct Hcode as [H | [H | H]]; [contradiction | auto | auto].
Qed.

(** X7.  [si5326_probe] makes no bus transaction before the adapter is
    checked and the memory allocated: when either fails it returns
    [-EIO], respectively [-ENOMEM], and nothing has happened.  Otherwise
    it initialises the mutex and then only reads, registers 0, 1, ... in
    order, at most four of them: it never writes to the chip. *)
Theorem probe_only_reads
    (env : probe_env) (i2c_client : Z) (st : kstate World) :
  (i2c_check_functionality env = false ->
   si5326_probe env i2c_client st = ((- EIO, None), st))
  /\ (i2c_check_functionality env = true -> kzalloc env = false ->
      si5326_probe env i2c_client st = ((- ENOMEM, None), st))
  /\ (i2c_check_functionality env = true -> kzalloc env = true ->
      exists k : nat,
        (1 <= k <= 4)%nat
        /\ events_of (si5326_probe env i2c_client) st
           = MutexInit :: reads_from 0 k).
Proof.
  split; [| split].
  - intros Hf. unfold si5326_probe. now rewrite Hf.
  - intros Hf Hk. unfold si5326_probe. now rewrite Hf, Hk.
  - intros Hf Hk.
    set (st0 := mk_kstate (bus st) (trace st ++ [MutexInit]) (klog st)).
    destruct (si5326_init_client_reads st0) as (k & Hk4 & Hev & _).
    exists k. split; [exact Hk4 |].
    apply events_of_app.
    rewrite (si5326_probe_run env i2c_client st Hf Hk). fold st0.
    assert (Ht : trace (snd (si5326_init_client st0))
                 = (trace st0 ++ reads_from 0 k)%list).
    { destruct (si5326_init_client_cases st0)
        as [(w' & _ & E) | [(rcs & w' & _ & _ & _ & E) | (i & rcs & w' & _ & _ & _ & _ & E)]];
        rewrite (events_of_app _ st0 _ (f_equal (fun p => trace (snd p)) E)) in Hev;
        rewrite E; cbn [snd trace]; now rewrite Hev. }
    destruct (si5326_init_client st0) as [e st2]. cbn [snd] in Ht.
    assert (Ht' : trace st2 = (trace st ++ MutexInit :: reads_from 0 k)%list).
    { rewrite Ht. unfold st0. cbn [trace]. now rewrite <- app_assoc. }
    destruct (e =? 0); cbn [negb snd]; [| exact Ht'].
    destruct (sysfs_create_group env =? 0); cbn [negb snd trace]; exact Ht'.
Qed.

(* ---------------------------------------------------------------- *)
(** *** The store on whole lines *)

Lemma peek_not_comment (buf : string) :
  peek buf <> "#"%char -> Ascii.eqb (peek buf) "#" = false.
Proof.
  intros H. destruct (Ascii.eqb (peek buf) "#") eqn:E; [| reflexivity].
  apply peek_eqb in E. contradiction.
Qed.

(** X8.  A store returns either the input length or [-EIO], and it
    returns [-EIO] exactly when the line is not a comment and either does
    not start with a number (it is empty, or its first character after
    white space and an optional minus sign is not a decimal digit) or is
    a write whose SMBus transaction does not return 0. *)
Theorem store_reg_fails_iff
    (data : si5326_data) (buf : string) (count : Z) (st : kstate World) :
  0 <= count <= SSIZE_MAX ->
  let result := fst (fst (si5326_store_reg data buf count st)) in
  (result = count \/ result = - EIO)
  /\ (result = - EIO
      <-> peek buf <> "#"%char
          /\ (starts_with_number buf = false
              \/ exists addr value : Z,
                   sscanf buf store_reg_format = [addr; value]
                   /\ fst (i2c_smbus_write_byte_data (bus st)
                             (to_u8 addr) (to_u8 value)) <> 0)).
Proof.
  intros Hn result. unfold result. clear result.
  pose proof (to_ssize_t_id count Hn) as Hc.
  assert (Hne : count <> - EIO) by (unfold EIO; lia).
  destruct (si5326_store_reg_cases data buf count st)
    as [[Hp E] | [(Hp & Hs & E) | [(a & Hp & Hs & _ & E) | (a & v & rc & w & Hp & Hs & Hw & E)]]];
    rewrite E; cbn [fst]; rewrite ?Hc.
  - split; [now left |]. split; [contradiction | intros [H _]; contradiction].
  - split; [now right |]. split; [intros _ | reflexivity].
    split; [exact Hp | left; now apply sscanf_nil_iff].
  - split; [now left |]. split; [contradiction |].
    intros (_ & [H | (a' & v' & H & _)]).
    + apply sscanf_nil_iff in H. rewrite H in Hs. discriminate.
    + rewrite H in Hs. discriminate.
  - destruct (rc =? 0) eqn:Er; rewrite ?Hc.
    + apply Z.eqb_eq in Er. split; [now left |]. split; [contradiction |].
      intros (_ & [H | (a' & v' & H & Hf)]).
      * apply sscanf_nil_iff in H. rewrite H in Hs. discriminate.
      * rewrite Hs in H. injection H as <- <-. rewrite Hw in Hf. contradiction.
    + apply Z.eqb_neq in Er. split; [now right |]. split; [intros _ | reflexivity].
      split; [exact Hp |]. right. exists a, v. split; [exact Hs |].
      now rewrite Hw.
Qed.

(** X9.  What a store leaves alone: it never reads the bus and never
    touches the [client] and [lock] fields; it leaves the device as it
    was unless the line is a write; the log gains at most the line of a
    rejected input; and [last_addr] stays an [int]. *)
Theorem store_reg_frame
    (data : si5326_data) (buf : string) (count : Z) (st : kstate World) :
  let '((_, data'), st') := si5326_store_reg data buf count st in
  client data' = client data
  /\ lock data' = lock data
  /\ (INT_MIN <= last_addr data <= INT_MAX ->
      INT_MIN <= last_addr data' <= INT_MAX)
  /\ filter is_bus_read (events_of (si5326_store_reg data buf count) st) = []
  /\ (List.length (sscanf buf store_reg_format) <> 2%nat -> bus st' = bus st)
  /\ (klog st' = klog st
      \/ klog st' = (klog st ++ [ErrStoreFail (c_str buf)])%list).
Proof.
  destruct (si5326_store_reg_cases data buf count st)
    as [[Hp E] | [(Hp & Hs & E) | [(a & Hp & Hs & Hr & E) | (a & v & rc & w & Hp & Hs & Hw & E)]]].
  - rewrite (events_of_app _ st []) by (rewrite E; cbn; now rewrite app_nil_r).
    rewrite E. repeat split; solve [lia | auto].
  - rewrite (events_of_app _ st []) by (rewrite E; cbn; now rewrite app_nil_r).
    rewrite E. repeat split; solve [lia | auto].
  - rewrite (events_of_app _ st [SetLastAddr a]) by now rewrite E.
    rewrite E. cbn [client lock last_addr bus klog]. repeat split; solve [lia | auto].
  - rewrite (events_of_app _ st [BusWrite a (to_u8 v)]) by now rewrite E.
    rewrite E. cbn [bus klog]. repeat split; try solve [lia | auto].
    rewrite Hs. cbn [List.length]. congruence.
Qed.

(** X10.  A line made of decimal digits worth at most [INT_MAX],
    followed by anything that neither continues the number nor begins,
    after white space, with [0] (the end of the line, a newline, a value
    without its prefix) selects that address and makes no transaction. *)
Theorem store_reg_address_line
    (data : si5326_data) (ds : list ascii) (rest : string) (count : Z)
    (st : kstate World) :
  ds <> [] ->
  Forall (fun c => isdigit c = true) ds ->
  stops_at 10 rest ->
  peek (skip_spaces rest) <> "0"%char ->
  read_digits 10 ds 0 <= INT_MAX ->
  0 <= count <= SSIZE_MAX ->
  si5326_store_reg data (chars_then ds rest) count st
  = ((count, mk_data (client data) (lock data) (read_digits 10 ds 0)),
     mk_kstate (bus st) (trace st ++ [SetLastAddr (read_digits 10 ds 0)])
       (klog st)).
Proof.
  intros Hne Hd Hstop Hz Hmax Hn.
  pose proof (sscanf_address_line ds rest Hne Hd Hstop Hz Hmax) as Hs.
  destruct (si5326_store_reg_cases data (chars_then ds rest) count st)
    as [[Hp _] | [(_ & H & _) | [(a & _ & H & _ & E) | (a & v & rc & w & _ & H & _)]]];
    try (rewrite Hs in H; discriminate).
  - apply sscanf_comment in Hp. rewrite Hs in Hp. discriminate.
  - rewrite Hs in H. injection H as <-.
    now rewrite E, (to_ssize_t_id count Hn).
Qed.

(** X11.  A line made of a decimal address, a blank, [0x] and
    hexadecimal digits makes exactly one write, at that address, of the
    low byte of that value, and leaves [last_addr] alone; it returns the
    input length when the transaction returns 0 and [-EIO] otherwise. *)
Theorem store_reg_write_line
    (data : si5326_data) (ds hs : list ascii) (rest : string) (count : Z)
    (st : kstate World) (rc : Z) (w : World) :
  ds <> [] ->
  hs <> [] ->
  Forall (fun c => isdigit c = true) ds ->
  Forall (fun c => isxdigit c = true) hs ->
  stops_at 16 rest ->
  (_tolower (peek rest) =? 120) = false ->
  read_digits 10 ds 0 <= INT_MAX ->
  read_digits 16 hs 0 < 2 ^ 32 ->
  0 <= count <= SSIZE_MAX ->
  i2c_smbus_write_byte_data (bus st)
    (to_u8 (read_digits 10 ds 0)) (to_u8 (read_digits 16 hs 0)) = (rc, w) ->
  si5326_store_reg data
    (chars_then ds (String " " (String "0" (String "x" (chars_then hs rest)))))
    count st
  = ((if rc =? 0 then count else - EIO, data),
     mk_kstate w
       (trace st
        ++ [BusWrite (read_digits 10 ds 0) (read_digits 16 hs 0 mod 256)])
       (klog st)).
Proof.
  intros Hd0 Hh0 Hd Hh Hstop Hnox Hdmax Hhmax Hn Hw.
  pose proof (sscanf_write_line ds hs rest Hd0 Hh0 Hd Hh Hstop Hnox Hdmax Hhmax)
    as Hs.
  set (line := chars_then ds _) in *.
  destruct (si5326_store_reg_cases data line count st)
    as [[Hp _] | [(_ & H & _) | [(a & _ & H & _ & _) | (a & v & rc' & w' & _ & H & Hw' & E)]]];
    try (rewrite Hs in H; discriminate).
  - apply sscanf_comment in Hp. rewrite Hs in Hp. discriminate.
  - rewrite Hs in H. injection H as <- <-.
    rewrite Hw in Hw'. injection Hw' as <- <-.
    now rewrite E, (to_ssize_t_id count Hn).
Qed.

(* ---------------------------------------------------------------- *)
(** *** Negative addresses *)

Lemma to_ll_id (x : Z) : - 2 ^ 63 <= x <= 2 ^ 63 - 1 -> to_ll x = x.
Proof.
  intros H. unfold to_ll, wrap_signed.
  change (2 ^ (64 - 1)) with 9223372036854775808.
  change (2 ^ 64) with 18446744073709551616.
  change (2 ^ 63) with 9223372036854775808 in H.
  destruct (Z_lt_le_dec x 0) as [Hneg | Hpos].
  - assert (Hm : x mod 18446744073709551616 = x + 18446744073709551616).
    { symmetry. apply Z.mod_unique with (q := -1); lia. }
    rewrite Hm.
    destruct (x + 18446744073709551616 <? 9223372036854775808) eqn:E;
      [apply Z.ltb_lt in E | apply Z.ltb_ge in E]; lia.
  - rewrite Z.mod_small by lia.
    destruct (x <? 9223372036854775808) eqn:E;
      [apply Z.ltb_lt in E | apply Z.ltb_ge in E]; lia.
Qed.

(** ["%d"] on a minus sign and a run of decimal digits. *)
Lemma scan_negative (ds : list ascii) (rest : string) (fmt : list directive) :
  ds <> [] ->
  Forall (fun c => isdigit c = true) ds ->
  stops_at 10 rest ->
  read_digits 10 ds 0 <= 2 ^ 31 ->
  vsscanf (String "-" (chars_then ds rest)) (DInt 10 true :: fmt)
  = - read_digits 10 ds 0 :: vsscanf rest fmt.
Proof.
  intros Hne Hd Hstop Hmax.
  destruct ds as [| d ds']; [contradiction |].
  pose proof (Forall_inv Hd) as Hd0. cbv beta in Hd0.
  pose proof (read_digits_nonneg 10 (d :: ds') ltac:(lia)) as Hpos.
  change (2 ^ 31) with 2147483648 in Hmax.
  assert (Hparse : _parse_integer (chars_then (d :: ds') rest) 10 0
                   = (read_digits 10 (d :: ds') 0, rest)).
  { apply parse_integer_run;
      first [assumption | now apply digits_in_10 | lia]. }
  set (v := read_digits 10 (d :: ds') 0) in *.
  set (tail := chars_then (d :: ds') rest) in *.
  assert (Hpeek : peek tail = d) by reflexivity.
  cbn [vsscanf]. cbn [peek].
  change (is_nul "-") with false. cbn iota.
  rewrite (skip_spaces_at_char "-" tail eq_refl).
  cbn [peek advance andb]. change (code "-" =? 45) with true. cbn iota.
  rewrite Hpeek, bad_first_digit_10, Hd0. cbn [negb].
  unfold simple_strtol. cbn [peek advance].
  change (code "-" =? 45) with true. cbn iota.
  unfold simple_strtoul, simple_strtoull, _parse_integer_fixup_radix.
  cbn [Z.eqb andb Pos.eqb]. rewrite Hparse.
  assert (Hv : to_int (to_ll (to_long (- to_ulong v))) = - v).
  { assert (Hu : to_ulong v = v).
    { unfold to_ulong, wrap_unsigned. apply Z.mod_small.
      change (2 ^ 32) with 4294967296. lia. }
    assert (Hl : to_long (- v) = - v).
    { apply wrap_signed_id. change (2 ^ 31) with 2147483648. lia. }
    rewrite Hu, Hl, to_ll_id
      by (change (2 ^ 63) with 9223372036854775808; lia).
    apply wrap_signed_id. change (2 ^ 31) with 2147483648. lia. }
  now rewrite Hv.
Qed.

(** X12.  The address is not range-checked: a line made of a minus sign
    and decimal digits worth at most 2^31 selects the negative address,
    with no transaction. *)
Theorem store_reg_negative_address
    (data : si5326_data) (ds : list ascii) (rest : string) (count : Z)
    (st : kstate World) :
  ds <> [] ->
  Forall (fun c => isdigit c = true) ds ->
  stops_at 10 rest ->
  peek (skip_spaces rest) <> "0"%char ->
  read_digits 10 ds 0 <= 2 ^ 31 ->
  0 <= count <= SSIZE_MAX ->
  si5326_store_reg data (String "-" (chars_then ds rest)) count st
  = ((count, mk_data (client data) (lock data) (- read_digits 10 ds 0)),
     mk_kstate (bus st) (trace st ++ [SetLastAddr (- read_digits 10 ds 0)])
       (klog st)).
Proof.
  intros Hne Hd Hstop Hz Hmax Hn.
  assert (Hs : sscanf (String "-" (chars_then ds rest)) store_reg_format
               = [- read_digits 10 ds 0]).
  { unfold sscanf, store_reg_format.
    rewrite scan_negative by assumption.
    cbn [vsscanf].
    destruct (Ascii.eqb "0" (peek (skip_spaces rest))) eqn:E; [| reflexivity].
    apply Ascii.eqb_eq in E. now symmetry in E. }
  destruct (si5326_store_reg_cases data (String "-" (chars_then ds rest)) count st)
    as [[Hp _] | [(_ & H & _) | [(a & _ & H & _ & E) | (a & v & rc & w & _ & H & _)]]];
    try (rewrite Hs in H; discriminate).
  - discriminate Hp.
  - rewrite Hs in H. injection H as <-.
    now rewrite E, (to_ssize_t_id count Hn).
Qed.


(* ---------------------------------------------------------------- *)
(** *** What reaches the bus *)

Lemma to_u8_wraps (x k : Z) : to_u8 (x + 256 * k) = to_u8 x.
Proof.
  unfold to_u8, wrap_unsigned. change (2 ^ 8) with 256.
  rewrite (Z.mul_comm 256 k). apply Z_mod_plus_full.
Qed.

(** X13.  Only the low byte of a register number and of a value reaches
    the bus: a read at [reg + 256 k] returns what a read at [reg]
    returns and leaves the device in the same state, and so does a write
    of [value + 256 j] at [reg + 256 k] compared with a write of [value]
    at [reg]. *)
Theorem reg_helpers_wrap (reg value k j : Z) (st : kstate World) :
  fst (si5326_read_reg (reg + 256 * k) st) = fst (si5326_read_reg reg st)
  /\ bus (snd (si5326_read_reg (reg + 256 * k) st))
     = bus (snd (si5326_read_reg reg st))
  /\ fst (si5326_write_reg (reg + 256 * k) (value + 256 * j) st)
     = fst (si5326_write_reg reg value st)
  /\ bus (snd (si5326_write_reg (reg + 256 * k) (value + 256 * j) st))
     = bus (snd (si5326_write_reg reg value st)).
Proof.
  unfold si5326_read_reg, si5326_write_reg. run_monad.
  rewrite !to_u8_wraps.
  destruct (i2c_smbus_read_byte_data (bus st) (to_u8 reg)) as [rc w].
  destruct (i2c_smbus_write_byte_data (bus st) (to_u8 reg) (to_u8 value))
    as [rc' w'].
  repeat split.
Qed.

(* ---------------------------------------------------------------- *)
(** *** The width of what a show writes *)

Lemma string_length_app (a b : string) :
  String.length (a ++ b) = (String.length a + String.length b)%nat.
Proof. induction a as [| c r IH]; cbn; [reflexivity | now rewrite IH]. Qed.

(** X14.  When the selected address and the value read are bytes, a show
    writes exactly five characters, two for each number around a space,
    and returns 5. *)
Theorem show_reg_byte_page
    (data : si5326_data) (st : kstate World) (rc : Z) (w : World) :
  0 <= last_addr data <= 255 ->
  i2c_smbus_read_byte_data (bus st) (to_u8 (last_addr data)) = (rc, w) ->
  0 <= rc <= 255 ->
  exists addr_token value_token : string,
    fst (si5326_show_reg data st)
    = (5, Some (addr_token ++ " " ++ value_token))
    /\ String.length addr_token = 2%nat
    /\ String.length value_token = 2%nat
    /\ simple_strtoull addr_token 16 = (last_addr data, EmptyString)
    /\ simple_strtoull value_token 16 = (rc, EmptyString).
Proof.
  intros Ha Hr Hv.
  exists (fmt_02x (last_addr data)), (fmt_02x rc).
  pose proof (fmt_02x_byte _ Ha) as La.
  pose proof (fmt_02x_byte _ Hv) as Lv.
  destruct (fmt_02x_spec (last_addr data)) as (_ & _ & Pa).
  destruct (fmt_02x_spec rc) as (_ & _ & Pv).
  assert (Ua : to_uint (last_addr data) = last_addr data).
  { unfold to_uint, wrap_unsigned. apply Z.mod_small.
    change (2 ^ 32) with 4294967296. lia. }
  assert (Uv : to_uint rc = rc).
  { unfold to_uint, wrap_unsigned. apply Z.mod_small.
    change (2 ^ 32) with 4294967296. lia. }
  rewrite Ua in Pa. rewrite Uv in Pv.
  rewrite (si5326_show_reg_run data st rc w Hr).
  assert (Hpos : (0 <=? rc) = true) by (apply Z.leb_le; lia).
  rewrite Hpos. cbv zeta. cbn [fst].
  rewrite !string_length_app, La, Lv.
  repeat split; assumption.
Qed.

(* ---------------------------------------------------------------- *)
(** *** Sessions *)

(** One access: the fields it keeps, the cursor it leaves and what it
    adds to the trace. *)
Lemma run_command_step
    (data : si5326_data) (c : command) (st : kstate World) :
  let '((_, data'), st') := run_command data c st in
  client data' = client data
  /\ lock data' = lock data
  /\ last_addr data' = cursor_after [c] (last_addr data)
  /\ exists evs : list event,
       trace st' = (trace st ++ evs)%list
       /\ List.length (transactions evs)
          = (if makes_transaction c then 1 else 0)%nat
       /\ filter is_mutex_op evs = []
       /\ (c = Show -> evs = [BusRead (last_addr data)]).
Proof.
  destruct c as [buf count |]; cbn [run_command cursor_after makes_transaction].
  - unfold cursor_after_store.
    destruct (si5326_store_reg_cases data buf count st)
      as [[Hp E] | [(Hp & Hs & E) | [(a & Hp & Hs & Hr & E) | (a & v & rc & w & Hp & Hs & Hw & E)]]];
      rewrite E; cbn [client lock last_addr trace].
    + rewrite Hp. cbn [Ascii.eqb Bool.eqb negb andb].
      repeat split. exists []. rewrite app_nil_r.
      repeat split. discriminate.
    + rewrite (peek_not_comment buf Hp), Hs. cbn [negb andb List.length Nat.eqb].
      repeat split. exists []. rewrite app_nil_r.
      repeat split. discriminate.
    + rewrite (peek_not_comment buf Hp), Hs. cbn [negb andb List.length Nat.eqb].
      repeat split. exists [SetLastAddr a].
      repeat split. discriminate.
    + rewrite (peek_not_comment buf Hp), Hs. cbn [negb andb List.length Nat.eqb].
      repeat split. exists [BusWrite a (to_u8 v)].
      repeat split. discriminate.
  - destruct (i2c_smbus_read_byte_data (bus st) (to_u8 (last_addr data)))
      as [rc w] eqn:Er.
    rewrite (si5326_show_reg_run data st rc w Er). cbn [trace].
    repeat split. exists [BusRead (last_addr data)]. repeat split.
Qed.

Lemma cursor_after_cons (c : command) (cmds : list command) (cursor : Z) :
  cursor_after (c :: cmds) cursor = cursor_after cmds (cursor_after [c] cursor).
Proof. destruct c; cbn [cursor_after]; reflexivity. Qed.

Lemma cursor_after_app (cmds cmds' : list command) :
  forall cursor : Z,
    cursor_after (cmds ++ cmds') cursor
    = cursor_after cmds' (cursor_after cmds cursor).
Proof.
  induction cmds as [| c r IH]; intros cursor; [reflexivity |].
  cbn [app]. rewrite (cursor_after_cons c (r ++ cmds')), (cursor_after_cons c r).
  apply IH.
Qed.

Lemma run_session_facts (cmds : list command) :
  forall (data : si5326_data) (st : kstate World),
    let '((rs, data'), st') := run_session data cmds st in
    List.length rs = List.length cmds
    /\ client data' = client data
    /\ lock data' = lock data
    /\ last_addr data' = cursor_after cmds (last_addr data)
    /\ exists evs : list event,
         trace st' = (trace st ++ evs)%list
         /\ List.length (transactions evs)
            = List.length (filter makes_transaction cmds)
         /\ filter is_mutex_op evs = [].
Proof.
  induction cmds as [| c cmds' IH]; intros data st.
  - cbn [run_session]. repeat split. exists []. now rewrite app_nil_r.
  - cbn [run_session].
    pose proof (run_command_step data c st) as S1.
    destruct (run_command data c st) as [[r data1] st1].
    destruct S1 as (Hc & Hl & Ha & evs1 & Ht1 & Hn1 & Hm1 & _).
    specialize (IH data1 st1).
    destruct (run_session data1 cmds' st1) as [[rs data2] st2].
    destruct IH as (Hlen & Hc2 & Hl2 & Ha2 & evs2 & Ht2 & Hn2 & Hm2).
    repeat split.
    + cbn [List.length]. now rewrite Hlen.
    + congruence.
    + congruence.
    + rewrite cursor_after_cons. congruence.
    + exists (evs1 ++ evs2)%list. repeat split.
      * rewrite Ht2, Ht1. now rewrite app_assoc.
      * unfold transactions in *. rewrite filter_app, length_app, Hn1, Hn2.
        cbn [filter]. destruct (makes_transaction c); reflexivity.
      * rewrite filter_app, Hm1, Hm2. reflexivity.
Qed.

Lemma run_session_app (cmds cmds' : list command) :
  forall (data : si5326_data) (st : kstate World),
    run_session data (cmds ++ cmds') st
    = let '((rs, data1), st1) := run_session data cmds st in
      let '((rs', data2), st2) := run_session data1 cmds' st1 in
      ((rs ++ rs', data2)%list, st2).
Proof.
  induction cmds as [| c r IH]; intros data st.
  - cbn [app run_session].
    now destruct (run_session data cmds' st) as [[rs' data2] st2].
  - cbn [app run_session].
    destruct (run_command data c st) as [[x data1] st1].
    rewrite IH.
    destruct (run_session data1 r st1) as [[rs data2] st2].
    now destruct (run_session data2 cmds' st2) as [[rs' data3] st3].
Qed.

(** X15.  The cursor is under the sole control of the address-select
    lines: after any session [last_addr] is the address of the last line
    that selected one, or what it was, whatever the device answered and
    whatever writes, read queries, comments and rejected lines the
    session has; the [client] and [lock] fields are what they were. *)
Theorem session_cursor
    (data : si5326_data) (cmds : list command) (st : kstate World) :
  let data' := snd (fst (run_session data cmds st)) in
  last_addr data' = cursor_after cmds (last_addr data)
  /\ client data' = client data
  /\ lock data' = lock data.
Proof.
  pose proof (run_session_facts cmds data st) as F.
  destruct (run_session data cmds st) as [[rs data'] st'].
  destruct F as (_ & Hc & Hl & Ha & _). cbn [fst snd]. auto.
Qed.

(** X16.  A session makes exactly one transport transaction for each
    read query and each write line and none for anything else, it
    returns one result for each access, and it never operates on the
    mutex. *)
Theorem session_transactions
    (data : si5326_data) (cmds : list command) (st : kstate World) :
  let evs := events_of (run_session data cmds) st in
  List.length (transactions evs) = List.length (filter makes_transaction cmds)
  /\ filter is_mutex_op evs = []
  /\ List.length (fst (fst (run_session data cmds st))) = List.length cmds.
Proof.
  pose proof (run_session_facts cmds data st) as F.
  cbv zeta.
  destruct (run_session data cmds st) as [[rs data'] st'] eqn:E.
  destruct F as (Hlen & _ & _ & _ & evs & Ht & Hn & Hm).
  rewrite (events_of_app (run_session data cmds) st evs) by now rewrite E.
  cbn [fst]. auto.
Qed.

(** X17.  A read query reads the register the cursor is on: at the end
    of any session it makes its one read at the address of the last
    address-select line of the session, or at the address there was
    before the session when there is none. *)
Theorem session_show_reads_cursor
    (data : si5326_data) (cmds : list command) (st : kstate World) :
  trace (snd (run_session data (cmds ++ [Show]) st))
  = (trace (snd (run_session data cmds st))
     ++ [BusRead (cursor_after cmds (last_addr data))])%list.
Proof.
  rewrite run_session_app.
  pose proof (run_session_facts cmds data st) as F.
  destruct (run_session data cmds st) as [[rs data1] st1].
  destruct F as (_ & _ & _ & Ha & _).
  cbn [run_session].
  pose proof (run_command_step data1 Show st1) as S1.
  destruct (run_command data1 Show st1) as [[r data2] st2].
  destruct S1 as (_ & _ & _ & evs & Ht & _ & _ & Hev).
  cbn [snd]. rewrite Ht, (Hev eq_refl). now rewrite Ha.
Qed.

(** X18.  Round trip: on a device that acknowledges the write and then
    answers the read of the same register with the byte written, a write
    line, an address-select line for the same address and a read query
    report the address and the low byte of the value written. *)
Theorem session_round_trip
    (data : si5326_data) (line1 line2 : string) (count1 count2 : Z)
    (st : kstate World) (addr value : Z) (w1 w2 : World) :
  sscanf line1 store_reg_format = [addr; value] ->
  sscanf line2 store_reg_format = [addr] ->
  0 <= count1 <= SSIZE_MAX ->
  0 <= count2 <= SSIZE_MAX ->
  i2c_smbus_write_byte_data (bus st) (to_u8 addr) (to_u8 value) = (0, w1) ->
  i2c_smbus_read_byte_data w1 (to_u8 addr) = (to_u8 value, w2) ->
  let page := fmt_02x addr ++ " " ++ fmt_02x (value mod 256) in
  run_session data [Store line1 count1; Store line2 count2; Show] st
  = (([(count1, None); (count2, None);
       (Z.of_nat (String.length page), Some page)],
      mk_data (client data) (lock data) addr),
     mk_kstate w2
       (trace st ++ [BusWrite addr (value mod 256); SetLastAddr addr;
                     BusRead addr])
       (klog st)).
Proof.
  intros Hs1 Hs2 Hn1 Hn2 Hw Hr page.
  cbn [run_session run_command].
  destruct (si5326_store_reg_cases data line1 count1 st)
    as [[Hp _] | [(_ & H & _) | [(a & _ & H & _ & _) | (a & v & rc & w & _ & H & Hw' & E)]]];
    try (rewrite Hs1 in H; discriminate).
  { apply sscanf_comment in Hp. rewrite Hs1 in Hp. discriminate. }
  rewrite Hs1 in H. injection H as <- <-.
  rewrite Hw in Hw'. injection Hw' as <- <-.
  rewrite E. cbn [Z.eqb]. rewrite (to_ssize_t_id count1 Hn1).
  set (st1 := mk_kstate w1 _ _).
  destruct (si5326_store_reg_cases data line2 count2 st1)
    as [[Hp _] | [(_ & H & _) | [(a & _ & H & _ & E2) | (a & v & rc & w & _ & H & _)]]];
    try (rewrite Hs2 in H; discriminate).
  { apply sscanf_comment in Hp. rewrite Hs2 in Hp. discriminate. }
  rewrite Hs2 in H. injection H as <-.
  rewrite E2, (to_ssize_t_id count2 Hn2).
  set (data2 := mk_data _ _ addr). set (st2 := mk_kstate (bus st1) _ _).
  assert (Hr' : i2c_smbus_read_byte_data (bus st2) (to_u8 (last_addr data2))
                = (to_u8 value, w2)) by exact Hr.
  rewrite (si5326_show_reg_run data2 st2 (to_u8 value) w2 Hr').
  assert (Hpos : (0 <=? to_u8 value) = true).
  { apply Z.leb_le. apply to_u8_range. }
  rewrite Hpos. unfold st2, st1, data2. cbn [trace klog bus last_addr].
  rewrite <- !app_assoc. reflexivity.
Qed.

End MoreFacts.

(* ================================================================== *)
(** * The further properties on the simulated chip *)

(** A chip whose register 1 is not at its reset value and whose
    register 2 does not answer. *)
Definition faulty_configured : chip :=
  mk_chip [(0, 0x14); (1, 0xe0); (2, 0x42); (3, 0x05)] [2].

Definition newline : string := String (ascii_of_nat 10) EmptyString.

Lemma init_client_failure_log_witness :
  klog (snd (si5326_init_client (boot faulty_configured)))
  = [ErrNotResetValue 1 0xe0 0xe4; ErrReadFailed 2 (- ENXIO)].
Proof.
  apply (init_client_failure_log (boot faulty_configured) 2
           [0x14; 0xe0; - ENXIO] faulty_configured).
  - lia.
  - reflexivity.
  - intros [| [| j]] Hj; cbn; lia.
  - reflexivity.
Defined.

Lemma store_reg_fails_iff_witness :
  fst (fst (si5326_store_reg attached "" 0 probed)) = - EIO.
Proof.
  destruct (store_reg_fails_iff attached "" 0 probed) as [_ [_ H]].
  - unfold SSIZE_MAX. lia.
  - apply H. split; [discriminate | left; reflexivity].
Defined.

Lemma store_reg_address_line_witness :
  si5326_store_reg attached (chars_then ["1"; "2"]%char newline) 3 probed
  = ((3, mk_data 1 MutexUnlocked 12),
     mk_kstate fresh (trace probed ++ [SetLastAddr 12]) (klog probed)).
Proof.
  apply (store_reg_address_line attached ["1"; "2"]%char newline 3 probed).
  - discriminate.
  - repeat constructor.
  - exact I.
  - discriminate.
  - discriminate.
  - unfold SSIZE_MAX. lia.
Defined.

Lemma store_reg_write_line_witness :
  si5326_store_reg attached
    (chars_then ["7"]%char
       (String " " (String "0" (String "x"
          (chars_then ["1"; "2"; "a"]%char newline)))))
    8 probed
  = ((8, attached),
     mk_kstate (mk_chip ((7, 0x2a) :: regs fresh) [])
       (trace probed ++ [BusWrite 7 0x2a]) (klog probed)).
Proof.
  apply (store_reg_write_line attached ["7"]%char ["1"; "2"; "a"]%char newline
           8 probed 0 (mk_chip ((7, 0x2a) :: regs fresh) [])).
  - discriminate.
  - discriminate.
  - repeat constructor.
  - repeat constructor.
  - exact I.
  - reflexivity.
  - discriminate.
  - reflexivity.
  - unfold SSIZE_MAX. lia.
  - reflexivity.
Defined.

Lemma store_reg_negative_address_witness :
  si5326_store_reg attached (String "-" (chars_then ["5"]%char newline)) 3 probed
  = ((3, mk_data 1 MutexUnlocked (-5)),
     mk_kstate fresh (trace probed ++ [SetLastAddr (-5)]) (klog probed)).
Proof.
  apply (store_reg_negative_address attached ["5"]%char newline 3 probed).
  - discriminate.
  - repeat constructor.
  - exact I.
  - discriminate.
  - discriminate.
  - unfold SSIZE_MAX. lia.
Defined.

Lemma show_reg_byte_page_witness :
  fst (si5326_show_reg (mk_data 1 MutexUnlocked 1) probed)
  = (5, Some "01 e4").
Proof.
  destruct (show_reg_byte_page (mk_data 1 MutexUnlocked 1) probed 0xe4 fresh)
    as (a & v & E & _ & _ & _ & _).
  - cbn. lia.
  - reflexivity.
  - lia.
  - reflexivity.
Defined.

Lemma session_round_trip_witness :
  fst (fst (run_session attached
              [Store "3 0x12a" 7; Store "3" 1; Show] probed))
  = [(7, None); (1, None); (5, Some "03 2a")].
Proof.
  rewrite (session_round_trip attached "3 0x12a" "3" 7 1 probed 3 0x12a
             (mk_chip ((3, 0x2a) :: regs fresh) [])
             (mk_chip ((3, 0x2a) :: regs fresh) [])).
  - reflexivity.
  - reflexivity.
  - reflexivity.
  - unfold SSIZE_MAX. lia.
  - unfold SSIZE_MAX. lia.
  - reflexivity.
  - reflexivity.
Defined.


